(** * The resolvers of [graphql_schema.py]: read-through cache and invalidation

    A shallow embedding of the [Query] resolvers and of the
    [CreateCustomer] mutation of [graphql_schema.py], with the two
    collaborators they pull from [info.context] (the GoManage client and the
    cache manager) as interfaces, and the properties of the caching
    pipeline proved over it.

    Conventions of the embedding.
    - Python strings are [string]s (sequences of 8-bit characters);
      [str.lower] is modelled on ASCII text, where it turns the capitals
      [A]-[Z] into small letters and leaves every other character as it
      is. On text with letters outside ASCII, [lower] below is not
      [str.lower]; what is proved about letter case is stated for ASCII
      text.
    - The values a record holds are [None], booleans, integers and strings;
      floats and nested containers are left out (no resolver inspects a
      field of such a type).
    - A record is a Python [dict] with string keys: a [gmap string pyval].
    - An exception is a value of [exn]; only exceptions derived from
      [Exception] are modelled (those the [except Exception] clauses of the
      source catch).
    - Every call on a collaborator is recorded in the [trace] of the world,
      newest first. Logging is not modelled. *)

From Stdlib Require Import ZArith String Ascii List Bool Lia.
From Stdlib Require Import DecimalString DecimalZ.
From stdpp Require Import base option gmap strings list.

Local Open Scope string_scope.
Local Open Scope Z_scope.

(** ** Python values *)

Inductive pyval : Type :=
| PNone
| PBool (b : bool)
| PInt (n : Z)
| PStr (s : string).

(** A record of the backend: a [dict] from field names to values. *)
Abbreviation Record := (gmap string pyval).

(** [bool(v)] *)
Definition truthy (v : pyval) : bool :=
  match v with
  | PNone => false
  | PBool b => b
  | PInt n => negb (n =? 0)
  | PStr s => negb (String.eqb s EmptyString)
  end.

(** [str(n)] for an [int]. *)
Definition str_int (n : Z) : string := NilZero.string_of_int (Z.to_int n).

(** [str(v)] *)
Definition str (v : pyval) : string :=
  match v with
  | PNone => "None"
  | PBool true => "True"
  | PBool false => "False"
  | PInt n => str_int n
  | PStr s => s
  end.

(** The integer a numeric value stands for ([bool] is a subclass of [int]). *)
Definition as_int (v : pyval) : option Z :=
  match v with
  | PBool b => Some (if b then 1 else 0)
  | PInt n => Some n
  | _ => None
  end.

(** [a == b] *)
Definition py_eq (a b : pyval) : bool :=
  match a, b with
  | PNone, PNone => true
  | PStr s, PStr t => String.eqb s t
  | _, _ =>
      match as_int a, as_int b with
      | Some m, Some n => m =? n
      | _, _ => false
      end
  end.

(** [a or b] *)
Definition py_or (a b : pyval) : pyval := if truthy a then a else b.

(** [d.get(k, dflt)] and [d.get(k)] *)
Definition dict_get (d : Record) (k : string) (dflt : pyval) : pyval :=
  default dflt (d !! k).

Definition dict_get_none (d : Record) (k : string) : pyval := dict_get d k PNone.

(** ** Strings *)

Definition lower_ascii (c : ascii) : ascii :=
  let n := N_of_ascii c in
  if ((65 <=? n) && (n <=? 90))%N then ascii_of_N (n + 32) else c.

(** [s.lower()], on ASCII text. *)
Fixpoint lower (s : string) : string :=
  match s with
  | EmptyString => EmptyString
  | String c s' => String (lower_ascii c) (lower s')
  end.

Fixpoint starts_with (p s : string) : bool :=
  match p, s with
  | EmptyString, _ => true
  | String a p', String b s' => Ascii.eqb a b && starts_with p' s'
  | String _ _, EmptyString => false
  end.

(** [sub in s] for two strings. *)
Fixpoint str_in (sub s : string) : bool :=
  starts_with sub s ||
  match s with
  | EmptyString => false
  | String _ s' => str_in sub s'
  end.

(** A search argument as Python sees it: [None] or a [str]. *)
Definition opt_truthy (s : option string) : bool :=
  match s with
  | Some t => negb (String.eqb t EmptyString)
  | None => false
  end.

(** [s or dflt] for an optional string argument. *)
Definition opt_or (s : option string) (dflt : string) : string :=
  match s with
  | Some t => if String.eqb t EmptyString then dflt else t
  | None => dflt
  end.

(** ** Exceptions and outcomes *)

Inductive exn : Type :=
| AttributeError (msg : string)
| TypeError (msg : string)
| Exception (msg : string).

(** [str(e)] *)
Definition exn_message (e : exn) : string :=
  match e with
  | AttributeError m | TypeError m | Exception m => m
  end.

Inductive outcome (A : Type) : Type :=
| Ret (a : A)
| Raise (e : exn).
Arguments Ret {A} a.
Arguments Raise {A} e.

Definition obind {A B} (o : outcome A) (k : A -> outcome B) : outcome B :=
  match o with
  | Ret a => k a
  | Raise e => Raise e
  end.

(** [v.lower()]: only a [str] has the method. *)
Definition lower_method (v : pyval) : outcome string :=
  match v with
  | PStr s => Ret (lower s)
  | PNone => Raise (AttributeError "'NoneType' object has no attribute 'lower'")
  | PBool _ => Raise (AttributeError "'bool' object has no attribute 'lower'")
  | PInt _ => Raise (AttributeError "'int' object has no attribute 'lower'")
  end.

(** [needle in (c.get(field, '') or '').lower()] *)
Definition field_contains (needle : string) (c : Record) (field : string)
  : outcome bool :=
  obind (lower_method (py_or (dict_get c field (PStr EmptyString)) (PStr EmptyString)))
        (fun hay => Ret (str_in needle hay)).

(** [a or b] on two conditions, the second evaluated only when the first is
    false. *)
Definition or_else (a : outcome bool) (b : outcome bool) : outcome bool :=
  obind a (fun x => if x then Ret true else b).

(** The condition of the comprehension of [resolve_customers]. *)
Definition customer_matches (search_lower : string) (c : Record) : outcome bool :=
  or_else (field_contains search_lower c "business_name")
    (or_else (field_contains search_lower c "vat_number")
       (Ret (str_in search_lower
               (lower (str (dict_get c "customer_id" (PStr EmptyString))))))).

(** The condition of the comprehension of [resolve_products]. *)
Definition product_matches (search_lower : string) (p : Record) : outcome bool :=
  or_else (field_contains search_lower p "reference")
          (field_contains search_lower p "description").

(** [[x for x in l if cond(x)]], where [cond] may raise. *)
Fixpoint comprehension (cond : Record -> outcome bool) (l : list Record)
  : outcome (list Record) :=
  match l with
  | [] => Ret []
  | x :: l' =>
      obind (cond x) (fun keep =>
      obind (comprehension cond l') (fun rest =>
      Ret (if keep then x :: rest else rest)))
  end.

(** [bool(l)] for a list. *)
Definition nonempty {A} (l : list A) : bool :=
  match l with [] => false | _ :: _ => true end.

(** ** The collaborators *)

(** The three listings the resolvers serve. *)
Inductive ResourceClass : Type := Customer | Product | Invoice.

(** What a list call of the client, or a call of [create_customer], gave. *)
Inductive Event : Type :=
| CacheGet (key : string)
| CacheSet (key : string) (value : list Record) (ttl : Z)
| CacheDelete (key : string)
| GetCustomers (limit : Z) (result : outcome (list Record))
| GetProducts (limit : Z) (result : outcome (list Record))
| GetInvoices (limit : Z) (from_date : option string)
              (result : outcome (list Record))
| CreateCustomerCall (data : Record) (result : outcome (option Record)).

(** The object under [info.context['cache_manager']], with state [C]:
    the three methods the source calls. Each may raise. *)
Class CacheManager (C : Type) : Type := {
  cm_get : string -> C -> outcome (option (list Record)) * C;
  cm_set : string -> list Record -> Z -> C -> outcome unit * C;
  cm_delete : string -> C -> outcome unit * C
}.

(** The object under [info.context['gomanage_client']], with state [B].
    A list call returns a sequence of records (never [None]);
    [create_customer] returns a record or a falsy value. Each may raise. *)
Class GoManageClient (B : Type) : Type := {
  get_customers : Z -> B -> outcome (list Record) * B;
  get_products : Z -> B -> outcome (list Record) * B;
  get_invoices : Z -> option string -> B -> outcome (list Record) * B;
  create_customer : Record -> B -> outcome (option Record) * B
}.

(** [bool(result)] for what [create_customer] returned: [None] and the
    empty [dict] are falsy. *)
Definition created_truthy (r : option Record) : bool :=
  match r with
  | Some d => negb (bool_decide (d = ∅))
  | None => false
  end.

(** [bool(cached_data)] and the list it stands for. *)
Definition cached_truthy (v : option (list Record)) : bool :=
  match v with
  | Some l => nonempty l
  | None => false
  end.

Definition cached_list (v : option (list Record)) : list Record :=
  default [] v.

(** The payload of the [CreateCustomer] mutation. *)
Record CreateCustomer : Type := {
  customer : option Record;
  success : bool;
  message : string
}.

Section Resolvers.
Context {C B : Type} `{CacheManager C} `{GoManageClient B}.

(** [info.context] with the state of the two collaborators, and the
    calls made on them so far (newest first). *)
Record World : Type := {
  cache_manager : option C;
  gomanage_client : option B;
  trace : list Event
}.

(** Computations on a world that return or raise. *)
Definition M (A : Type) : Type := World -> outcome A * World.

Definition ret {A} (a : A) : M A := fun w => (Ret a, w).

Definition raise {A} (e : exn) : M A := fun w => (Raise e, w).

Definition bind {A A'} (m : M A) (k : A -> M A') : M A' :=
  fun w =>
    match m w with
    | (Ret a, w') => k a w'
    | (Raise e, w') => (Raise e, w')
    end.

(** [try: body / except Exception as e: handler(e)] *)
Definition try_except {A} (body : M A) (handler : exn -> M A) : M A :=
  fun w =>
    match body w with
    | (Ret a, w') => (Ret a, w')
    | (Raise e, w') => handler e w'
    end.

Definition lift {A} (o : outcome A) : M A := fun w => (o, w).

Notation "'let*' x ':=' m 'in' k" := (bind m (fun x => k))
  (at level 10, x name, m at level 100, k at level 200).

(** [bool(info.context.get('gomanage_client'))] and the same for the
    cache manager. *)
Definition has_client : M bool :=
  fun w => (Ret (bool_decide (is_Some (gomanage_client w))), w).

Definition has_cache : M bool :=
  fun w => (Ret (bool_decide (is_Some (cache_manager w))), w).

(** A method call on the cache manager; on [None] the attribute lookup
    raises. *)
Definition on_cache {A} (op : C -> outcome A * C) (ev : Event) : M A :=
  fun w =>
    match cache_manager w with
    | Some c =>
        let '(r, c') := op c in
        (r, {| cache_manager := Some c';
               gomanage_client := gomanage_client w;
               trace := ev :: trace w |})
    | None =>
        (Raise (AttributeError "'NoneType' object has no attribute"), w)
    end.

Definition cache_get (key : string) : M (option (list Record)) :=
  on_cache (cm_get key) (CacheGet key).

Definition cache_set (key : string) (value : list Record) (ttl : Z) : M unit :=
  on_cache (cm_set key value ttl) (CacheSet key value ttl).

Definition cache_delete (key : string) : M unit :=
  on_cache (cm_delete key) (CacheDelete key).

(** A method call on the client; the event records what it gave. *)
Definition on_client {A} (op : B -> outcome A * B) (ev : outcome A -> Event)
  : M A :=
  fun w =>
    match gomanage_client w with
    | Some b =>
        let '(r, b') := op b in
        (r, {| cache_manager := cache_manager w;
               gomanage_client := Some b';
               trace := ev r :: trace w |})
    | None =>
        (Raise (AttributeError "'NoneType' object has no attribute"), w)
    end.

Definition client_get_customers (limit : Z) : M (list Record) :=
  on_client (get_customers limit) (GetCustomers limit).

Definition client_get_products (limit : Z) : M (list Record) :=
  on_client (get_products limit) (GetProducts limit).

Definition client_get_invoices (limit : Z) (from_date : option string)
  : M (list Record) :=
  on_client (get_invoices limit from_date) (GetInvoices limit from_date).

Definition client_create_customer (data : Record) : M (option Record) :=
  on_client (create_customer data) (CreateCustomerCall data).

(** *** [Query.resolve_customers] *)
Definition resolve_customers (limit : Z) (search : option string)
  : M (list Record) :=
  try_except
    (let* gomanage_client := has_client in
     let* cache_manager := has_cache in
     if negb gomanage_client then ret []
     else
       let cache_key :=
         "customers_" +:+ str_int limit +:+ "_" +:+ opt_or search "all" in
       let* cached_data :=
         (if cache_manager then cache_get cache_key else ret None) in
       let* customers :=
         (if cached_truthy cached_data then ret (cached_list cached_data)
          else
            let* customers := client_get_customers limit in
            let* _ :=
              (if cache_manager && nonempty customers
               then cache_set cache_key customers 3600
               else ret tt) in
            ret customers) in
       let* customers :=
         (if opt_truthy search && nonempty customers
          then
            let search_lower := lower (opt_or search EmptyString) in
            lift (comprehension (customer_matches search_lower) customers)
          else ret customers) in
       ret customers)
    (fun e => ret []).

(** *** [Query.resolve_products] *)
Definition resolve_products (limit : Z) (search : option string)
  : M (list Record) :=
  try_except
    (let* gomanage_client := has_client in
     let* cache_manager := has_cache in
     if negb gomanage_client then ret []
     else
       let cache_key :=
         "products_" +:+ str_int limit +:+ "_" +:+ opt_or search "all" in
       let* cached_data :=
         (if cache_manager then cache_get cache_key else ret None) in
       let* products :=
         (if cached_truthy cached_data then ret (cached_list cached_data)
          else
            let* products := client_get_products limit in
            let* _ :=
              (if cache_manager && nonempty products
               then cache_set cache_key products 7200
               else ret tt) in
            ret products) in
       let* products :=
         (if opt_truthy search && nonempty products
          then
            let search_lower := lower (opt_or search EmptyString) in
            lift (comprehension (product_matches search_lower) products)
          else ret products) in
       ret products)
    (fun e => ret []).

(** *** [Query.resolve_invoices] *)
Definition resolve_invoices (limit : Z) (from_date : option string)
  : M (list Record) :=
  try_except
    (let* gomanage_client := has_client in
     let* cache_manager := has_cache in
     if negb gomanage_client then ret []
     else
       let cache_key :=
         "invoices_" +:+ str_int limit +:+ "_" +:+ opt_or from_date "all" in
       let* cached_data :=
         (if cache_manager then cache_get cache_key else ret None) in
       if cached_truthy cached_data then ret (cached_list cached_data)
       else
         let* invoices := client_get_invoices limit from_date in
         let* _ :=
           (if cache_manager && nonempty invoices
            then cache_set cache_key invoices 1800
            else ret tt) in
         ret invoices)
    (fun e => ret []).

(** [for x in l: if x.get(field) == wanted: return x] / [return None] *)
Fixpoint scan (field : string) (wanted : pyval) (l : list Record)
  : option Record :=
  match l with
  | [] => None
  | x :: l' =>
      if py_eq (dict_get_none x field) wanted then Some x
      else scan field wanted l'
  end.

(** *** [Query.resolve_customer] *)
Definition resolve_customer (customer_id : Z) : M (option Record) :=
  try_except
    (let* customers := resolve_customers 1000 None in
     ret (scan "customer_id" (PInt customer_id) customers))
    (fun e => ret None).

(** *** [Query.resolve_product] *)
Definition resolve_product (product_id : string) : M (option Record) :=
  try_except
    (let* products := resolve_products 1000 None in
     ret (scan "product_id" (PStr product_id) products))
    (fun e => ret None).

(** *** [Query.resolve_invoice] *)
Definition resolve_invoice (invoice_id : Z) : M (option Record) :=
  try_except
    (let* invoices := resolve_invoices 1000 None in
     ret (scan "invoice_id" (PInt invoice_id) invoices))
    (fun e => ret None).

(** *** [CreateCustomer.mutate] *)

(** The [customer_data] dictionary the mutation sends to the client. *)
Definition customer_data (business_name vat_number : pyval) (kwargs : Record)
: Record :=
<["business_name" := business_name]>
(<["vat_number" := vat_number]>
(<["name" := dict_get kwargs "name" business_name]>
(<["email" := dict_get kwargs "email" (PStr EmptyString)]>
(<["street_name" := dict_get kwargs "street_name" (PStr EmptyString)]>
(<["postal_code" := dict_get_none kwargs "postal_code"]>
(<["city" := dict_get kwargs "city" (PStr EmptyString)]>
(<["province_id" := dict_get_none kwargs "province_id"]>
(<["country_id" := dict_get kwargs "country_id" (PStr "ES")]>
(<["phone" := dict_get kwargs "phone" (PStr EmptyString)]> ∅))))))))).

Definition mutate (business_name vat_number : pyval) (kwargs : Record)
: M CreateCustomer :=
try_except
  (let* gomanage_client := has_client in
   let* cache_manager := has_cache in
   if negb gomanage_client then
     ret {| customer := None; success := false;
            message := "GoManage client no disponible" |}
   else
     let customer_data := customer_data business_name vat_number kwargs in
     let* result := client_create_customer customer_data in
     if created_truthy result then
       let* _ :=
         (if cache_manager then
            let* _ := cache_delete "customers_100_all" in
            cache_delete "customers_1000_all"
          else ret tt) in
       ret {| customer := Some customer_data; success := true;
              message := "Cliente creado exitosamente" |}
     else
       ret {| customer := None; success := false;
              message := "Error creando cliente en GoManage" |})
  (fun e => ret {| customer := None; success := false;
                   message := "Error: " +:+ exn_message e |}).

(** A call [mutate(root, info, **args)]: Python binds the two positional
    parameters from the keyword arguments and collects the others in
    [kwargs]; when one of the two is not supplied the call itself raises
    [TypeError], before the body (and its [try]) is entered. *)
Definition mutate_call (args : Record) : M CreateCustomer :=
  match args !! "business_name", args !! "vat_number" with
  | Some business_name, Some vat_number =>
      mutate business_name vat_number
             (delete "business_name" (delete "vat_number" args))
  | _, _ =>
      raise (TypeError "mutate() missing required positional argument")
  end.

(** The listing of a class, as the facade dispatches it. *)
Definition fetch (cls : ResourceClass) (limit : Z) (term : option string)
  : M (list Record) :=
  match cls with
  | Customer => resolve_customers limit term
  | Product => resolve_products limit term
  | Invoice => resolve_invoices limit term
  end.

End Resolvers.

Arguments World : clear implicits.
Arguments M : clear implicits.

(** ** The per-class table: key prefix, expiry and filter *)

Definition prefix (cls : ResourceClass) : string :=
  match cls with
  | Customer => "customers"
  | Product => "products"
  | Invoice => "invoices"
  end.

(** The key of a listing: prefix, limit, and the search term or date. *)
Definition cache_key (cls : ResourceClass) (limit : Z) (term : option string)
  : string :=
  prefix cls +:+ "_" +:+ str_int limit +:+ "_" +:+ opt_or term "all".

Definition ttl (cls : ResourceClass) : Z :=
  match cls with
  | Customer => 3600
  | Product => 7200
  | Invoice => 1800
  end.

Arguments cache_key : simpl never.

(** The list call of a class on the client, and the event it leaves. *)
Definition list_call {B} `{GoManageClient B} (cls : ResourceClass)
  (limit : Z) (term : option string) : B -> outcome (list Record) * B :=
  match cls with
  | Customer => get_customers limit
  | Product => get_products limit
  | Invoice => get_invoices limit term
  end.

Definition list_event (cls : ResourceClass) (limit : Z) (term : option string)
  (r : outcome (list Record)) : Event :=
  match cls with
  | Customer => GetCustomers limit r
  | Product => GetProducts limit r
  | Invoice => GetInvoices limit term r
  end.

(** The condition under which a class keeps a record of the working set. *)
Definition matches (cls : ResourceClass) (search_lower : string) (r : Record)
  : outcome bool :=
  match cls with
  | Customer => customer_matches search_lower r
  | Product => product_matches search_lower r
  | Invoice => Ret true
  end.

(** What a resolver returns from its working set: the filtering stage,
    with the [except] clause around it. *)
Definition returned (cls : ResourceClass) (term : option string)
  (working : list Record) : list Record :=
  match cls with
  | Invoice => working
  | _ =>
      if opt_truthy term && nonempty working then
        match comprehension (matches cls (lower (opt_or term EmptyString))) working with
        | Ret l => l
        | Raise _ => []
        end
      else working
  end.

Definition is_backend_call (ev : Event) : bool :=
  match ev with
  | GetCustomers _ _ | GetProducts _ _ | GetInvoices _ _ _ => true
  | _ => false
  end.

Definition is_cache_set (ev : Event) : bool :=
  match ev with CacheSet _ _ _ => true | _ => false end.

Definition is_cache_write (ev : Event) : bool :=
  match ev with CacheSet _ _ _ | CacheDelete _ => true | _ => false end.

(** The number of events of a kind in a trace. *)
Definition count (p : Event -> bool) (t : list Event) : nat :=
  length (List.filter p t).

Definition mkWorld {C B} (c : option C) (b : option B) (t : list Event)
  : World C B :=
  {| cache_manager := c; gomanage_client := b; trace := t |}.

(** ** The cache store *)

(** Modelled from the spec: the cache store behind [cache_manager], whose
    code is not part of [graphql_schema.py]. A key/value store with an
    expiry per entry: [set(key, value, ttl)] replaces the whole entry and
    lets it expire [ttl] seconds from now, [get(key)] gives the value while
    [now < expiresAt] and nothing afterwards, [delete(key)] removes the
    entry. Failures of the underlying store are absorbed by the adapter,
    so none of the three raises. *)
Record TTLStore : Type := {
  entries : gmap string (list Record * Z);
  now : Z
}.

Definition visible (s : TTLStore) (key : string) : option (list Record) :=
  match entries s !! key with
  | Some (value, expires_at) =>
      if now s <? expires_at then Some value else None
  | None => None
  end.

Definition store_set (key : string) (value : list Record) (ttl : Z)
  (s : TTLStore) : TTLStore :=
  {| entries := <[key := (value, now s + ttl)]> (entries s); now := now s |}.

Definition store_delete (key : string) (s : TTLStore) : TTLStore :=
  {| entries := delete key (entries s); now := now s |}.

(** [dt] seconds pass. *)
Definition advance (dt : N) (s : TTLStore) : TTLStore :=
  {| entries := entries s; now := now s + Z.of_N dt |}.

#[export] Instance ttl_store : CacheManager TTLStore := {
  cm_get key s := (Ret (visible s key), s);
  cm_set key value ttl s := (Ret tt, store_set key value ttl s);
  cm_delete key s := (Ret tt, store_delete key s)
}.

(** A store with no entry. *)
Definition empty_store (clock : Z) : TTLStore :=
  {| entries := ∅; now := clock |}.

(** Time passing in a world whose cache manager is the store above. *)
Definition tick {B} (dt : N) (w : World TTLStore B) : World TTLStore B :=
  mkWorld (advance dt <$> cache_manager w) (gomanage_client w) (trace w).

(** ** A scripted client *)

(** A client that replays prepared answers, one per call; with no answer
    left a list call gives the empty sequence and [create_customer] gives
    [None]. *)
Record Script : Type := {
  list_replies : list (outcome (list Record));
  create_replies : list (outcome (option Record))
}.

Definition next_list (b : Script) : outcome (list Record) * Script :=
  match list_replies b with
  | [] => (Ret [], b)
  | r :: rest =>
      (r, {| list_replies := rest; create_replies := create_replies b |})
  end.

Definition next_create (b : Script) : outcome (option Record) * Script :=
  match create_replies b with
  | [] => (Ret None, b)
  | r :: rest =>
      (r, {| list_replies := list_replies b; create_replies := rest |})
  end.

#[export] Instance scripted_client : GoManageClient Script := {
  get_customers _ := next_list;
  get_products _ := next_list;
  get_invoices _ _ := next_list;
  create_customer _ := next_create
}.

(** A cache manager whose every call raises: an unreachable store behind an
    adapter that lets the failure through. *)
Inductive Unreachable : Type := unreachable.

#[export] Instance unreachable_store : CacheManager Unreachable := {
  cm_get _ s := (Raise (Exception "connection refused"), s);
  cm_set _ _ _ s := (Raise (Exception "connection refused"), s);
  cm_delete _ s := (Raise (Exception "connection refused"), s)
}.

(** ** Sequences of requests *)

Inductive Request : Type :=
| Fetch (cls : ResourceClass) (limit : Z) (term : option string)
| Wait (dt : N).

Definition serve {B} `{GoManageClient B} (w : World TTLStore B) (rq : Request)
  : World TTLStore B :=
  match rq with
  | Fetch cls limit term => snd (fetch cls limit term w)
  | Wait dt => tick dt w
  end.

Definition serve_all {B} `{GoManageClient B} (rqs : list Request)
  (w : World TTLStore B) : World TTLStore B :=
  fold_left serve rqs w.

(** The keys of the cache calls of a trace. *)
Definition cache_keys (t : list Event) : list string :=
  flat_map (fun ev =>
              match ev with
              | CacheGet k | CacheSet k _ _ | CacheDelete k => [k]
              | _ => []
              end) t.

Definition writes_key (key : string) (ev : Event) : bool :=
  match ev with
  | CacheSet k _ _ | CacheDelete k => String.eqb k key
  | _ => false
  end.

(** [populated key value t]: the latest write of [key] in the trace [t] is
    the [set] of a miss, which stored [value] right after a list call of
    the client returned that same [value], under the key and the expiry of
    the listing asked for. *)
Inductive populated (key : string) (value : list Record)
  : list Event -> Prop :=
| populated_now cls limit term t :
    key = cache_key cls limit term ->
    populated key value
      (CacheSet key value (ttl cls)
       :: list_event cls limit term (Ret value) :: t)
| populated_before ev t :
    writes_key key ev = false ->
    populated key value t ->
    populated key value (ev :: t).

(** Every entry of the store is the unfiltered answer of the miss that
    last populated its key. *)
Definition entries_unfiltered {B} (w : World TTLStore B) : Prop :=
  forall s key value expires_at,
    cache_manager w = Some s ->
    entries s !! key = Some (value, expires_at) ->
    populated key value (trace w).

(** ** The filter, in the words of its description *)














(** The first record of [l] whose [field] equals [wanted]. *)
Definition first_with (field : string) (wanted : pyval) (l : list Record)
  : option Record :=
  find (fun r => py_eq (dict_get_none r field) wanted) l.

(** The events one call of [fetch] may leave: reads and sets of its own key,
    and list calls of the client; never a [delete]. *)
Definition own_event (cls : ResourceClass) (limit : Z) (term : option string)
  (ev : Event) : Prop :=
  match ev with
  | CacheGet k => k = cache_key cls limit term
  | CacheSet k _ t => k = cache_key cls limit term /\ t = ttl cls
  | CacheDelete _ => False
  | CreateCustomerCall _ _ => False
  | _ => ev = list_event cls limit term
                (match ev with
                 | GetCustomers _ r | GetProducts _ r | GetInvoices _ _ r => r
                 | _ => Ret []
                 end)
  end.

(** ** Sample data *)

Definition acme : Record :=
  <["customer_id" := PInt 7]>
  (<["business_name" := PStr "Acme FOO"]>
  (<["vat_number" := PStr "ES123"]> ∅)).

Definition bar_ltd : Record :=
  <["customer_id" := PInt 8]>
  (<["business_name" := PStr "Bar Ltd"]>
  (<["vat_number" := PNone]> ∅)).

(** A record whose business name is a number, not a string. *)
Definition odd_one : Record :=
  <["customer_id" := PInt 9]> (<["business_name" := PInt 5]> ∅).

(** A client that lists both customers, then one, and creates [acme]. *)
Definition sample_client : Script :=
  {| list_replies := [Ret [acme; bar_ltd]; Ret [bar_ltd]];
     create_replies := [Ret (Some acme)] |}.

(** A client with nothing to list at first. *)
Definition late_client : Script :=
  {| list_replies := [Ret []; Ret [acme]]; create_replies := [Ret None] |}.

Definition sample_world : World TTLStore Script :=
  mkWorld (Some (empty_store 0)) (Some sample_client) [].

(** A store holding three customer listings, all of them alive. *)
Definition stocked_store : TTLStore :=
  {| entries :=
       <["customers_100_all" := ([acme; bar_ltd], 3600)]>
       (<["customers_1000_all" := ([acme; bar_ltd], 3600)]>
       (<["customers_10_all" := ([acme], 3600)]> ∅));
     now := 100 |}.

Definition stocked_world : World TTLStore Script :=
  mkWorld (Some stocked_store) (Some sample_client) [].

(** A client whose listing holds the odd record. *)
Definition odd_client : Script :=
  {| list_replies := [Ret [acme; odd_one; bar_ltd]]; create_replies := [] |}.

Definition odd_world : World TTLStore Script :=
  mkWorld (Some (empty_store 0)) (Some odd_client) [].

(** The keyword arguments of a mutation call that lacks [vat_number]. *)
Definition args_without_vat : Record :=
  <["business_name" := PStr "Acme"]> (<["email" := PStr "a@b.c"]> ∅).

(** ** Cache statistics *)

(** The fourth method the source calls on the cache manager: [get_stats()],
    which returns a dictionary and may raise. (The call leaves no event in
    the trace.) *)
Class StatsSource (C : Type) : Type := {
  cm_get_stats : C -> outcome Record * C
}.

(** The dictionary [resolve_cache_stats] returns with no cache manager. *)
Definition no_manager_stats : Record :=
  <["type" := PStr "None"]>
  (<["connected" := PBool false]>
  (<["error" := PStr "Cache manager no disponible"]> ∅)).

(** The dictionary [resolve_cache_stats] returns on an exception. *)
Definition error_stats (e : exn) : Record :=
  <["type" := PStr "Error"]>
  (<["connected" := PBool false]>
  (<["error" := PStr (exn_message e)]> ∅)).

(** [cache_manager.get_stats()] *)
Definition cache_get_stats {C B} `{StatsSource C} : M C B Record :=
  fun w =>
    match cache_manager w with
    | Some c =>
        let '(r, c') := cm_get_stats c in
        (r, mkWorld (Some c') (gomanage_client w) (trace w))
    | None =>
        (Raise (AttributeError "'NoneType' object has no attribute"), w)
    end.

(** *** [Query.resolve_cache_stats] *)
Definition resolve_cache_stats {C B} `{StatsSource C} : M C B Record :=
  try_except
    (bind has_cache (fun cache_manager =>
       if cache_manager then cache_get_stats
       else ret no_manager_stats))
    (fun e => ret (error_stats e)).

(** A store that reports its number of entries. *)
#[export] Instance ttl_store_stats : StatsSource TTLStore := {
  cm_get_stats s :=
    (Ret (<["type" := PStr "memory"]>
          (<["connected" := PBool true]>
          (<["keys" := PInt (Z.of_nat (size (entries s)))]> ∅))), s)
}.

#[export] Instance unreachable_stats : StatsSource Unreachable := {
  cm_get_stats s := (Raise (Exception "connection refused"), s)
}.

(** ** More of the per-class table *)

(** The text field a search looks at first in every record. *)
Definition leading_field (cls : ResourceClass) : string :=
  match cls with
  | Customer => "business_name"
  | Product => "reference"
  | Invoice => EmptyString
  end.

Definition is_str (v : pyval) : bool :=
  match v with PStr _ => true | _ => false end.

(** [c] occurs in [s]. *)
Fixpoint has_char (c : ascii) (s : string) : bool :=
  match s with
  | EmptyString => false
  | String x s' => Ascii.eqb x c || has_char c s'
  end.

(** The optional arguments of the mutation, and what [customer_data] holds
    for one that is not supplied. *)
Definition optional_arguments : list string :=
  ["name"; "email"; "street_name"; "postal_code"; "city"; "province_id";
   "country_id"; "phone"].

Definition default_argument (business_name : pyval) (field : string) : pyval :=
  if String.eqb field "name" then business_name
  else if String.eqb field "country_id" then PStr "ES"
  else if String.eqb field "postal_code" then PNone
  else if String.eqb field "province_id" then PNone
  else PStr EmptyString.

(** One of the five shapes the events of a single [fetch] take. *)
Inductive fetch_events (cls : ResourceClass) (limit : Z)
  (term : option string) : list Event -> Prop :=
| events_none : fetch_events cls limit term []
| events_hit :
    fetch_events cls limit term [CacheGet (cache_key cls limit term)]
| events_miss r :
    fetch_events cls limit term
      [list_event cls limit term r; CacheGet (cache_key cls limit term)]
| events_stored value :
    value <> [] ->
    fetch_events cls limit term
      [CacheSet (cache_key cls limit term) value (ttl cls);
       list_event cls limit term (Ret value);
       CacheGet (cache_key cls limit term)]
| events_uncached r :
    fetch_events cls limit term [list_event cls limit term r].

Section WorkingSet.
Context {C B : Type} `{CacheManager C} `{GoManageClient B}.

  (** [working_set cls limit term w l]: the records [fetch] works on in the
      world [w] are [l], either read from the cache or fetched from the
      client on a miss. *)
Inductive working_set (cls : ResourceClass) (limit : Z)
    (term : option string) : World C B -> list Record -> Prop :=
  | working_hit c b t v c' :
      cm_get (cache_key cls limit term) c = (Ret v, c') ->
      cached_truthy v = true ->
      working_set cls limit term (mkWorld (Some c) (Some b) t) (cached_list v)
  | working_miss c b t v c' l b' c'' :
      cm_get (cache_key cls limit term) c = (Ret v, c') ->
      cached_truthy v = false ->
      list_call cls limit term b = (Ret l, b') ->
      (nonempty l = true ->
       cm_set (cache_key cls limit term) l (ttl cls) c' = (Ret tt, c'')) ->
      working_set cls limit term (mkWorld (Some c) (Some b) t) l
  | working_uncached b t l b' :
      list_call cls limit term b = (Ret l, b') ->
      working_set cls limit term (mkWorld None (Some b) t) l.
End WorkingSet.

Section Runs.
Context {C B : Type} `{CacheManager C} `{GoManageClient B}.

Ltac fold_key limit term :=
  change (append "customers_" (append (str_int limit) (append "_" (opt_or term "all"))))
    with (cache_key Customer limit term) in *;
  change (append "products_" (append (str_int limit) (append "_" (opt_or term "all"))))
    with (cache_key Product limit term) in *;
  change (append "invoices_" (append (str_int limit) (append "_" (opt_or term "all"))))
    with (cache_key Invoice limit term) in *.

Lemma fetch_without_client cls limit term (w : World C B) :
  gomanage_client w = None ->
  fetch cls limit term w = (Ret [], w).
Proof.
  intros Hb. destruct cls; unfold fetch, resolve_customers, resolve_products,
    resolve_invoices, try_except, bind, has_client, has_cache; cbn;
    rewrite Hb; reflexivity.
Qed.

Lemma fetch_hit cls limit term c b t v c' :
  cm_get (cache_key cls limit term) c = (Ret v, c') ->
  cached_truthy v = true ->
  fetch cls limit term (mkWorld (Some c) (Some b) t)
  = (Ret (returned cls term (cached_list v)),
     mkWorld (Some c') (Some b) (CacheGet (cache_key cls limit term) :: t)).
Proof.
  intros Hget Hv.
  destruct cls; unfold fetch, resolve_customers, resolve_products,
    resolve_invoices; fold_key limit term;
    unfold try_except, bind, has_client, has_cache, cache_get, on_cache,
      mkWorld, ret, lift, returned; cbn;
    rewrite Hget; cbn; rewrite Hv; cbn; try reflexivity.
  all: destruct (opt_truthy term && nonempty (cached_list v)); cbn; try reflexivity.
  all: destruct (comprehension _ _); reflexivity.
Qed.

Ltac run_fetch limit term :=
  unfold fetch, resolve_customers, resolve_products, resolve_invoices;
  fold_key limit term;
  unfold try_except, bind, has_client, has_cache, cache_get, cache_set,
    client_get_customers, client_get_products, client_get_invoices,
    on_cache, on_client, mkWorld, ret, lift, returned, list_call,
    list_event, ttl in *; cbn.

Lemma fetch_get_raises cls limit term c b t e c' :
  cm_get (cache_key cls limit term) c = (Raise e, c') ->
  fetch cls limit term (mkWorld (Some c) (Some b) t)
  = (Ret [],
     mkWorld (Some c') (Some b) (CacheGet (cache_key cls limit term) :: t)).
Proof.
  intros Hget. destruct cls; run_fetch limit term; rewrite Hget; reflexivity.
Qed.

Lemma fetch_miss_backend_raises cls limit term c b t v c' e b' :
  cm_get (cache_key cls limit term) c = (Ret v, c') ->
  cached_truthy v = false ->
  list_call cls limit term b = (Raise e, b') ->
  fetch cls limit term (mkWorld (Some c) (Some b) t)
  = (Ret [],
     mkWorld (Some c') (Some b')
       (list_event cls limit term (Raise e)
        :: CacheGet (cache_key cls limit term) :: t)).
Proof.
  intros Hget Hv Hlist.
  destruct cls; run_fetch limit term; rewrite Hget; cbn; rewrite Hv; cbn;
    rewrite Hlist; reflexivity.
Qed.

Lemma fetch_miss_empty cls limit term c b t v c' b' :
  cm_get (cache_key cls limit term) c = (Ret v, c') ->
  cached_truthy v = false ->
  list_call cls limit term b = (Ret [], b') ->
  fetch cls limit term (mkWorld (Some c) (Some b) t)
  = (Ret [],
     mkWorld (Some c') (Some b')
       (list_event cls limit term (Ret [])
        :: CacheGet (cache_key cls limit term) :: t)).
Proof.
  intros Hget Hv Hlist.
  destruct cls; run_fetch limit term; rewrite Hget; cbn; rewrite Hv; cbn;
    rewrite Hlist; cbn; try reflexivity.
  all: rewrite andb_false_r; reflexivity.
Qed.

Lemma fetch_miss_stored cls limit term c b t v c' rs b' c'' :
  cm_get (cache_key cls limit term) c = (Ret v, c') ->
  cached_truthy v = false ->
  list_call cls limit term b = (Ret rs, b') ->
  nonempty rs = true ->
  cm_set (cache_key cls limit term) rs (ttl cls) c' = (Ret tt, c'') ->
  fetch cls limit term (mkWorld (Some c) (Some b) t)
  = (Ret (returned cls term rs),
     mkWorld (Some c'') (Some b')
       (CacheSet (cache_key cls limit term) rs (ttl cls)
        :: list_event cls limit term (Ret rs)
        :: CacheGet (cache_key cls limit term) :: t)).
Proof.
  intros Hget Hv Hlist Hrs Hset.
  destruct cls; run_fetch limit term; rewrite Hget; cbn; rewrite Hv; cbn;
    rewrite Hlist; cbn; rewrite Hrs; cbn; rewrite Hset; cbn;
    try reflexivity.
  all: rewrite Hrs; destruct (opt_truthy term); cbn; try reflexivity.
  all: destruct (comprehension _ _); reflexivity.
Qed.

Lemma fetch_miss_set_raises cls limit term c b t v c' rs b' e c'' :
  cm_get (cache_key cls limit term) c = (Ret v, c') ->
  cached_truthy v = false ->
  list_call cls limit term b = (Ret rs, b') ->
  nonempty rs = true ->
  cm_set (cache_key cls limit term) rs (ttl cls) c' = (Raise e, c'') ->
  fetch cls limit term (mkWorld (Some c) (Some b) t)
  = (Ret [],
     mkWorld (Some c'') (Some b')
       (CacheSet (cache_key cls limit term) rs (ttl cls)
        :: list_event cls limit term (Ret rs)
        :: CacheGet (cache_key cls limit term) :: t)).
Proof.
  intros Hget Hv Hlist Hrs Hset.
  destruct cls; run_fetch limit term; rewrite Hget; cbn; rewrite Hv; cbn;
    rewrite Hlist; cbn; rewrite Hrs; cbn; rewrite Hset; reflexivity.
Qed.

(** With no cache manager in the context every call goes to the client. *)
Lemma fetch_uncached cls limit term (b : B) t r b' :
  list_call cls limit term b = (r, b') ->
  fetch cls limit term (mkWorld (@None C) (Some b) t)
  = (Ret (match r with Ret rs => returned cls term rs | Raise _ => [] end),
     mkWorld None (Some b') (list_event cls limit term r :: t)).
Proof.
  intros Hlist.
  destruct cls; run_fetch limit term; rewrite Hlist; destruct r as [rs|e];
    cbn; try reflexivity.
  all: destruct (opt_truthy term && nonempty rs); cbn; try reflexivity.
  all: destruct (comprehension _ _); reflexivity.
Qed.

(** A [try] whose handler returns a value never lets an exception out. *)
Lemma try_except_returns {A} (body : M C B A) (dflt : A) (w : World C B) :
  exists a w', try_except body (fun _ => ret dflt) w = (Ret a, w').
Proof.
  unfold try_except, ret. destruct (body w) as [[a|e] w']; eauto.
Qed.

Lemma fetch_returns cls limit term (w : World C B) :
  exists l w', fetch cls limit term w = (Ret l, w').
Proof.
  destruct cls; apply try_except_returns.
Qed.

End Runs.

(** ** Facts on strings and keys *)

Section StringFacts.

Lemma append_cons (c : ascii) (a b : string) :
  String c a +:+ b = String c (a +:+ b).
Proof. reflexivity. Qed.

Lemma length_append (a b : string) :
  String.length (a +:+ b) = (String.length a + String.length b)%nat.
Proof.
  induction a as [|x a IH]; [reflexivity |].
  rewrite append_cons. cbn. now rewrite IH.
Qed.

Lemma append_inv_head (p a b : string) : p +:+ a = p +:+ b -> a = b.
Proof.
  induction p as [|c p IH]; [tauto |].
  rewrite !append_cons. intros [= Heq]. auto.
Qed.

Lemma append_inv_tail (a b s : string) : a +:+ s = b +:+ s -> a = b.
Proof.
  revert b. induction a as [|x a IH]; intros [|y b] Heq.
  - reflexivity.
  - apply (f_equal String.length) in Heq.
    rewrite !length_append in Heq. cbn in Heq. lia.
  - apply (f_equal String.length) in Heq.
    rewrite !length_append in Heq. cbn in Heq. lia.
  - rewrite !append_cons in Heq. injection Heq as -> Heq.
    f_equal. now apply IH.
Qed.




Lemma to_int_normal (n : Z) :
  Z.to_int n <> Decimal.Pos Decimal.Nil /\ Z.to_int n <> Decimal.Neg Decimal.Nil.
Proof.
  assert (Hn : Z.to_int n = Decimal.norm (Z.to_int n))
    by now rewrite <- DecimalZ.to_of, DecimalZ.of_to.
  rewrite Hn. clear Hn.
  destruct (Z.to_int n) as [u|u]; cbn.
  - split; [|discriminate].
    intros [= Hu]. now apply DecimalFacts.unorm_nonnil in Hu.
  - pose proof (DecimalFacts.unorm_nonnil u) as Hu.
    unfold Decimal.unorm in Hu.
    destruct (Decimal.nzhead u) eqn:E; split; try discriminate; congruence.
Qed.

Lemma str_int_inj (m n : Z) : str_int m = str_int n -> m = n.
Proof.
  unfold str_int. intros Heq.
  apply DecimalZ.to_int_inj.
  destruct (to_int_normal m) as [Hm1 Hm2], (to_int_normal n) as [Hn1 Hn2].
  pose proof (NilZero.isi _ Hm1 Hm2) as Em.
  pose proof (NilZero.isi _ Hn1 Hn2) as En.
  rewrite Heq in Em. congruence.
Qed.

Lemma cache_key_limit_inj cls l1 l2 term :
  cache_key cls l1 term = cache_key cls l2 term -> l1 = l2.
Proof.
  unfold cache_key. intros Heq.
  apply append_inv_head, append_inv_head in Heq.
  apply append_inv_tail in Heq. now apply str_int_inj.
Qed.

Lemma cache_key_term_inj cls limit t1 t2 :
  cache_key cls limit t1 = cache_key cls limit t2 ->
  opt_or t1 "all" = opt_or t2 "all".
Proof.
  unfold cache_key. intros Heq.
  now do 4 apply append_inv_head in Heq.
Qed.

End StringFacts.

(** ** What a call of [fetch] adds to the trace *)

Section Traces.
Context {C B : Type} `{CacheManager C} `{GoManageClient B}.

Lemma own_list_event cls limit term r :
  own_event cls limit term (list_event cls limit term r).
Proof. destruct cls; reflexivity. Qed.

Lemma fetch_new_events cls limit term (w : World C B) :
  exists new,
    trace (snd (fetch cls limit term w)) = (new ++ trace w)%list /\
    Forall (own_event cls limit term) new.
Proof.
  destruct w as [[c|] [b|] t].
  - change (Build_World (Some c) (Some b) t) with (mkWorld (Some c) (Some b) t).
    destruct (cm_get (cache_key cls limit term) c) as [[v|e] c'] eqn:Hget.
    + destruct (cached_truthy v) eqn:Hv.
      * rewrite (fetch_hit _ _ _ _ _ _ _ _ Hget Hv).
        exists [CacheGet (cache_key cls limit term)]. split; [reflexivity|].
        repeat constructor.
      * destruct (list_call cls limit term b) as [[rs|e] b'] eqn:Hlist.
        -- destruct rs as [|r rs].
           ++ rewrite (fetch_miss_empty _ _ _ _ _ _ _ _ _ Hget Hv Hlist).
              eexists [_; _]. split; [reflexivity|].
              repeat constructor. apply own_list_event.
           ++ destruct (cm_set (cache_key cls limit term) (r :: rs) (ttl cls) c')
                as [[[]|e] c''] eqn:Hset.
              ** rewrite (fetch_miss_stored _ _ _ _ _ _ _ _ _ _ _
                            Hget Hv Hlist eq_refl Hset).
                 eexists [_; _; _]. split; [reflexivity|].
                 repeat constructor. apply own_list_event.
              ** rewrite (fetch_miss_set_raises _ _ _ _ _ _ _ _ _ _ _ _
                            Hget Hv Hlist eq_refl Hset).
                 eexists [_; _; _]. split; [reflexivity|].
                 repeat constructor. apply own_list_event.
        -- rewrite (fetch_miss_backend_raises _ _ _ _ _ _ _ _ _ _
                      Hget Hv Hlist).
           eexists [_; _]. split; [reflexivity|].
           repeat constructor. apply own_list_event.
    + rewrite (fetch_get_raises _ _ _ _ _ _ _ _ Hget).
      exists [CacheGet (cache_key cls limit term)]. split; [reflexivity|].
      repeat constructor.
  - rewrite fetch_without_client by reflexivity. exists []. split; constructor.
  - change (Build_World None (Some b) t) with (mkWorld (@None C) (Some b) t).
    destruct (list_call cls limit term b) as [r b'] eqn:Hlist.
    rewrite (fetch_uncached _ _ _ _ _ _ _ Hlist).
    eexists [_]. split; [reflexivity|].
    repeat constructor. apply own_list_event.
  - rewrite fetch_without_client by reflexivity. exists []. split; constructor.
Qed.

Lemma own_event_keys cls limit term new :
  Forall (own_event cls limit term) new ->
  forall k, In k (cache_keys new) -> k = cache_key cls limit term.
Proof.
  induction 1 as [|ev new Hev _ IH]; cbn; [tauto|].
  intros k Hin. apply in_app_or in Hin as [Hin|Hin]; [|auto].
  destruct ev; cbn in Hin, Hev; intuition congruence.
Qed.

End Traces.

(** ** Key derivation *)

(** C7. The key of a listing is a function of the class, the limit and the
    search term or date alone: whatever the context holds (any cache
    manager and client, in any state, with any trace), every cache call a
    [fetch] makes uses the key [cache_key cls limit term]; and the keys of
    the same term at two different limits are different. *)
Theorem C7_key_is_function_of_class_limit_term
  {C B : Type} `{CacheManager C} `{GoManageClient B}
  (cls : ResourceClass) (limit : Z) (term : option string) :
  (forall w : World C B,
      exists new,
        trace (snd (fetch cls limit term w)) = (new ++ trace w)%list /\
        forall k, In k (cache_keys new) -> k = cache_key cls limit term) /\
  (forall limit', limit <> limit' ->
                  cache_key cls limit term <> cache_key cls limit' term).
Proof.
  split.
  - intros w. destruct (fetch_new_events cls limit term w) as (new & Ht & Hown).
    exists new. split; [exact Ht|]. now apply own_event_keys.
  - intros limit' Hne Heq. apply Hne. eapply cache_key_limit_inj, Heq.
Qed.

(** ** No exception reaches the caller *)

(** C6. [fetch] returns a value in every world, whatever the collaborators
    do. With no client in the context it returns the empty sequence and
    touches nothing; when the list call of the client raises (with or
    without a cache manager), or when [get] or [set] of the cache manager
    raises, it returns the empty sequence; and with no cache manager in the
    context every call goes to the client and returns what the client gave
    (through the filter of the term, if there is one), leaving the context
    without a cache manager for the next call. *)
Theorem C6_fetch_never_raises
  {C B : Type} `{CacheManager C} `{GoManageClient B}
  (cls : ResourceClass) (limit : Z) (term : option string) :
  (forall w : World C B, exists l w', fetch cls limit term w = (Ret l, w')) /\
  (forall w : World C B,
      gomanage_client w = None -> fetch cls limit term w = (Ret [], w)) /\
  (forall (b : B) t e b',
      list_call cls limit term b = (Raise e, b') ->
      fst (fetch cls limit term (mkWorld (@None C) (Some b) t)) = Ret []) /\
  (forall (c : C) (b : B) t v c' e b',
      cm_get (cache_key cls limit term) c = (Ret v, c') ->
      cached_truthy v = false ->
      list_call cls limit term b = (Raise e, b') ->
      fst (fetch cls limit term (mkWorld (Some c) (Some b) t)) = Ret []) /\
  (forall (c : C) (b : B) t e c',
      cm_get (cache_key cls limit term) c = (Raise e, c') ->
      fst (fetch cls limit term (mkWorld (Some c) (Some b) t)) = Ret []) /\
  (forall (c : C) (b : B) t v c' rs b' e c'',
      cm_get (cache_key cls limit term) c = (Ret v, c') ->
      cached_truthy v = false ->
      list_call cls limit term b = (Ret rs, b') ->
      nonempty rs = true ->
      cm_set (cache_key cls limit term) rs (ttl cls) c' = (Raise e, c'') ->
      fst (fetch cls limit term (mkWorld (Some c) (Some b) t)) = Ret []) /\
  (forall (b : B) t rs b',
      list_call cls limit term b = (Ret rs, b') ->
      fetch cls limit term (mkWorld (@None C) (Some b) t)
      = (Ret (returned cls term rs),
         mkWorld None (Some b') (list_event cls limit term (Ret rs) :: t))) /\
  (forall rs, returned cls None rs = rs).
Proof.
  repeat split.
  - apply fetch_returns.
  - apply fetch_without_client.
  - intros b t e b' Hlist. now rewrite (fetch_uncached _ _ _ _ _ _ _ Hlist).
  - intros c b t v c' e b' Hget Hv Hlist.
    now rewrite (fetch_miss_backend_raises _ _ _ _ _ _ _ _ _ _ Hget Hv Hlist).
  - intros c b t e c' Hget. now rewrite (fetch_get_raises _ _ _ _ _ _ _ _ Hget).
  - intros c b t v c' rs b' e c'' Hget Hv Hlist Hrs Hset.
    now rewrite (fetch_miss_set_raises _ _ _ _ _ _ _ _ _ _ _ _
                   Hget Hv Hlist Hrs Hset).
  - intros b t rs b' Hlist. now rewrite (fetch_uncached _ _ _ _ _ _ _ Hlist).
  - intros rs. destruct cls; reflexivity.
Qed.

(** ** Lookup by identifier *)

Lemma scan_first_with field wanted l :
  scan field wanted l = first_with field wanted l.
Proof.
  induction l as [|x l IH]; cbn; [reflexivity|].
  destruct (py_eq _ _); [reflexivity | exact IH].
Qed.

Lemma first_with_none field wanted l :
  first_with field wanted l = None <->
  forall r, In r l -> py_eq (dict_get_none r field) wanted = false.
Proof.
  unfold first_with. split.
  - intros Hnone r Hin. exact (find_none _ _ Hnone r Hin).
  - induction l as [|x l IH]; cbn; [reflexivity|].
    intros Hall. rewrite (Hall x) by now left. apply IH.
    intros r Hin. apply Hall. now right.
Qed.

(** C8. A lookup by identifier is the listing at limit 1000 with no term,
    scanned for the first record whose identifier field equals the
    identifier asked for: [resolve_customer], [resolve_product] and
    [resolve_invoice] return [first_with] over what [fetch] returned and
    leave the world [fetch] left; the answer is [None] exactly when no
    record of the listing has the identifier. *)
Theorem C8_lookup_is_scan_of_listing_1000
  {C B : Type} `{CacheManager C} `{GoManageClient B} (w : World C B) :
  (forall customer_id,
      exists l w', fetch Customer 1000 None w = (Ret l, w') /\
        resolve_customer customer_id w
        = (Ret (first_with "customer_id" (PInt customer_id) l), w')) /\
  (forall product_id,
      exists l w', fetch Product 1000 None w = (Ret l, w') /\
        resolve_product product_id w
        = (Ret (first_with "product_id" (PStr product_id) l), w')) /\
  (forall invoice_id,
      exists l w', fetch Invoice 1000 None w = (Ret l, w') /\
        resolve_invoice invoice_id w
        = (Ret (first_with "invoice_id" (PInt invoice_id) l), w')) /\
  (forall field wanted l,
      first_with field wanted l = None <->
      forall r, In r l -> py_eq (dict_get_none r field) wanted = false).
Proof.
  repeat split.
  - intros id. destruct (fetch_returns Customer 1000 None w) as (l & w' & Hf).
    exists l, w'. split; [exact Hf|].
    unfold resolve_customer, try_except, bind. cbn in Hf. rewrite Hf.
    now rewrite scan_first_with.
  - intros id. destruct (fetch_returns Product 1000 None w) as (l & w' & Hf).
    exists l, w'. split; [exact Hf|].
    unfold resolve_product, try_except, bind. cbn in Hf. rewrite Hf.
    now rewrite scan_first_with.
  - intros id. destruct (fetch_returns Invoice 1000 None w) as (l & w' & Hf).
    exists l, w'. split; [exact Hf|].
    unfold resolve_invoice, try_except, bind. cbn in Hf. rewrite Hf.
    now rewrite scan_first_with.
  - apply first_with_none.
  - apply first_with_none.
Qed.

(** ** Read-through on the store *)

Section ReadThrough.
Context {B : Type} `{GoManageClient B}.

Lemma list_event_is_backend_call cls limit term r :
  is_backend_call (list_event cls limit term r) = true.
Proof. destruct cls; reflexivity. Qed.

Lemma list_event_is_no_write cls limit term r :
  is_cache_write (list_event cls limit term r) = false
  /\ is_cache_set (list_event cls limit term r) = false.
Proof. destruct cls; split; reflexivity. Qed.

Lemma visible_empty clock key : visible (empty_store clock) key = None.
Proof. unfold visible, empty_store; cbn. now rewrite lookup_empty. Qed.

Lemma visible_after_set key value seconds s (dt : N) :
  Z.of_N dt < seconds ->
  visible (advance dt (store_set key value seconds s)) key = Some value.
Proof.
  intros Hdt. unfold visible, advance, store_set; cbn.
  rewrite lookup_insert_eq.
  destruct (Z.ltb_spec (now s + Z.of_N dt) (now s + seconds)); [reflexivity | lia].
Qed.

(** Time passing never brings an entry back. *)
Lemma visible_advance_none s key (dt : N) :
  cached_truthy (visible s key) = false ->
  cached_truthy (visible (advance dt s) key) = false.
Proof.
  unfold visible, advance; cbn.
  destruct (entries s !! key) as [[value expires_at]|]; [|reflexivity].
  destruct (Z.ltb_spec (now s) expires_at) as [Hlt|Hge];
    destruct (Z.ltb_spec (now s + Z.of_N dt) expires_at); cbn; auto; lia.
Qed.

Lemma fetch_store_hit cls limit term s (b : B) t l :
  visible s (cache_key cls limit term) = Some l ->
  nonempty l = true ->
  fetch cls limit term (mkWorld (Some s) (Some b) t)
  = (Ret (returned cls term l),
     mkWorld (Some s) (Some b) (CacheGet (cache_key cls limit term) :: t)).
Proof.
  intros Hvis Hl.
  rewrite (fetch_hit cls limit term s b t (Some l) s); [reflexivity | | exact Hl].
  cbn. now rewrite Hvis.
Qed.

Lemma fetch_store_miss cls limit term s (b : B) t r b' :
  cached_truthy (visible s (cache_key cls limit term)) = false ->
  list_call cls limit term b = (r, b') ->
  fetch cls limit term (mkWorld (Some s) (Some b) t)
  = match r with
    | Ret (x :: rs) =>
        (Ret (returned cls term (x :: rs)),
         mkWorld (Some (store_set (cache_key cls limit term) (x :: rs)
                          (ttl cls) s))
           (Some b')
           (CacheSet (cache_key cls limit term) (x :: rs) (ttl cls)
            :: list_event cls limit term r
            :: CacheGet (cache_key cls limit term) :: t))
    | _ =>
        (Ret [],
         mkWorld (Some s) (Some b')
           (list_event cls limit term r
            :: CacheGet (cache_key cls limit term) :: t))
    end.
Proof.
  intros Hvis Hlist. destruct r as [[|x rs]|e].
  - now apply (fetch_miss_empty cls limit term s b t
                 (visible s (cache_key cls limit term)) s b').
  - now apply (fetch_miss_stored cls limit term s b t
                 (visible s (cache_key cls limit term)) s (x :: rs) b').
  - now apply (fetch_miss_backend_raises cls limit term s b t
                 (visible s (cache_key cls limit term)) s e b').
Qed.

End ReadThrough.

(** C1. Starting from a store with no entry, a [fetch] of any class makes
    exactly one list call on the client. When that call returns a non-empty
    sequence [rs], the fetch makes exactly one [set], which stores [rs]
    under the derived key with the expiry of the class (3600, 7200 and 1800
    seconds), and returns [rs] through the filter of the term; a second
    fetch of the same class, limit and term, made before the entry
    expires, only reads the cache (no list call, no [set]) and returns the
    same sequence. *)
Theorem C1_read_through
  {B : Type} `{GoManageClient B}
  (cls : ResourceClass) (limit : Z) (term : option string)
  (clock : Z) (b : B) (t : list Event) (r : outcome (list Record)) (b1 : B) :
  list_call cls limit term b = (r, b1) ->
  let key := cache_key cls limit term in
  let w0 := mkWorld (Some (empty_store clock)) (Some b) t in
  let w1 := snd (fetch cls limit term w0) in
  count is_backend_call (trace w1) = S (count is_backend_call t) /\
  (ttl Customer = 3600 /\ ttl Product = 7200 /\ ttl Invoice = 1800) /\
  forall rs,
    r = Ret rs -> rs <> [] ->
    fetch cls limit term w0 = (Ret (returned cls term rs), w1) /\
    trace w1 = CacheSet key rs (ttl cls)
               :: list_event cls limit term (Ret rs) :: CacheGet key :: t /\
    count is_cache_set (trace w1) = S (count is_cache_set t) /\
    cache_manager w1 = Some (store_set key rs (ttl cls) (empty_store clock)) /\
    forall dt : N,
      Z.of_N dt < ttl cls ->
      fetch cls limit term (tick dt w1)
      = (Ret (returned cls term rs),
         mkWorld (cache_manager (tick dt w1)) (Some b1)
                 (CacheGet key :: trace w1)) /\
      count is_backend_call (CacheGet key :: trace w1)
      = count is_backend_call (trace w1) /\
      count is_cache_set (CacheGet key :: trace w1)
      = count is_cache_set (trace w1).
Proof.
  intros Hlist key w0 w1.
  assert (Hmiss : cached_truthy (visible (empty_store clock) key) = false)
    by now rewrite visible_empty.
  pose proof (fetch_store_miss cls limit term _ b t r b1 Hmiss Hlist) as Hrun.
  fold key in Hrun. fold w0 in Hrun.
  split; [|split; [repeat split|]].
  - subst w1. rewrite Hrun. unfold count.
    destruct r as [[|x rs]|e]; cbn; rewrite list_event_is_backend_call;
      reflexivity.
  - intros rs -> Hrs. destruct rs as [|x rs]; [congruence|].
    subst w1. rewrite Hrun. cbn [snd trace cache_manager mkWorld].
    repeat split.
    + unfold count. cbn.
      now rewrite (proj2 (list_event_is_no_write cls limit term _)).
    + unfold tick. cbn [cache_manager gomanage_client trace mkWorld fmap option_fmap option_map].
      apply fetch_store_hit; [|reflexivity].
      now apply visible_after_set.
Qed.

(** C5. When the list call of a miss returns the empty sequence, [fetch]
    returns it without a [set]: the store is left as it was. The same
    [fetch] made again, at once or any time later, misses again and makes a
    new list call on the client. *)
Theorem C5_empty_result_is_not_cached
  {B : Type} `{GoManageClient B}
  (cls : ResourceClass) (limit : Z) (term : option string)
  (s : TTLStore) (b : B) (t : list Event) (b1 : B) :
  let key := cache_key cls limit term in
  cached_truthy (visible s key) = false ->
  list_call cls limit term b = (Ret [], b1) ->
  let w1 := mkWorld (Some s) (Some b1)
              (list_event cls limit term (Ret []) :: CacheGet key :: t) in
  fetch cls limit term (mkWorld (Some s) (Some b) t) = (Ret [], w1) /\
  count is_cache_set (trace w1) = count is_cache_set t /\
  forall (dt : N) r2 b2,
    list_call cls limit term b1 = (r2, b2) ->
    exists later,
      trace (snd (fetch cls limit term (tick dt w1)))
      = (later ++ list_event cls limit term r2 :: CacheGet key :: trace w1)%list
      /\ count is_backend_call (trace (snd (fetch cls limit term (tick dt w1))))
         = S (count is_backend_call (trace w1)).
Proof.
  intros key Hmiss Hlist w1. split; [|split].
  - now rewrite (fetch_store_miss cls limit term s b t _ b1 Hmiss Hlist).
  - unfold count. cbn.
    now rewrite (proj2 (list_event_is_no_write cls limit term _)).
  - intros dt r2 b2 Hlist2.
    unfold tick, w1. cbn [cache_manager gomanage_client trace mkWorld fmap option_fmap option_map].
    rewrite (fetch_store_miss cls limit term (advance dt s) b1 _ r2 b2
               (visible_advance_none s key dt Hmiss) Hlist2).
    fold key.
    destruct r2 as [[|x rs]|e]; cbn [snd trace mkWorld].
    + exists []. split; [reflexivity|]. unfold count. cbn.
      now rewrite !list_event_is_backend_call.
    + eexists [_]. split; [reflexivity|]. unfold count. cbn.
      now rewrite !list_event_is_backend_call.
    + exists []. split; [reflexivity|]. unfold count. cbn.
      now rewrite !list_event_is_backend_call.
Qed.

(** ** Invalidation on write *)

(** C4. On a store and a client, when [create_customer] returns a truthy
    result the mutation deletes the keys of the default customer listings
    at limits 100 and 1000 ([customers_100_all] and [customers_1000_all],
    the keys [fetch] derives for them), touches no other entry, and
    reports success; when [create_customer] returns a falsy result or
    raises, the mutation returns [success = false] with a message and no
    customer, makes no cache call, and leaves the store as it was. *)
Theorem C4_create_invalidates_default_listings
  {B : Type} `{GoManageClient B}
  (business_name vat_number : pyval) (kwargs : Record)
  (s : TTLStore) (b : B) (t : list Event) :
  let data := customer_data business_name vat_number kwargs in
  let w := mkWorld (Some s) (Some b) t in
  (cache_key Customer 100 None = "customers_100_all" /\
   cache_key Customer 1000 None = "customers_1000_all") /\
  (forall res b1,
      create_customer data b = (Ret res, b1) ->
      created_truthy res = true ->
      let s' := store_delete "customers_1000_all"
                  (store_delete "customers_100_all" s) in
      mutate business_name vat_number kwargs w
      = (Ret {| customer := Some data; success := true;
                message := "Cliente creado exitosamente" |},
         mkWorld (Some s') (Some b1)
           (CacheDelete "customers_1000_all"
            :: CacheDelete "customers_100_all"
            :: CreateCustomerCall data (Ret res) :: t)) /\
      entries s' !! "customers_100_all" = None /\
      entries s' !! "customers_1000_all" = None /\
      visible s' "customers_100_all" = None /\
      visible s' "customers_1000_all" = None /\
      (forall key, key <> "customers_100_all" -> key <> "customers_1000_all" ->
                   entries s' !! key = entries s !! key)) /\
  (forall r b1,
      create_customer data b = (r, b1) ->
      match r with
      | Ret res => created_truthy res = false
      | Raise _ => True
      end ->
      exists payload,
        mutate business_name vat_number kwargs w
        = (Ret payload,
           mkWorld (Some s) (Some b1) (CreateCustomerCall data r :: t)) /\
        success payload = false /\
        message payload <> EmptyString /\
        customer payload = None).
Proof.
  intros data w. split; [split; reflexivity|]. split.
  - intros res b1 Hcreate Hres s'. repeat split.
    + unfold mutate, try_except, bind, has_client, has_cache,
        client_create_customer, cache_delete, on_client, on_cache, ret, w,
        mkWorld; cbn.
      fold data. rewrite Hcreate. cbn. rewrite Hres. reflexivity.
    + unfold s', store_delete; cbn.
      rewrite lookup_delete_ne by discriminate. apply lookup_delete_eq.
    + unfold s', store_delete; cbn. apply lookup_delete_eq.
    + unfold visible, s', store_delete; cbn.
      rewrite lookup_delete_ne by discriminate. now rewrite lookup_delete_eq.
    + unfold visible, s', store_delete; cbn. now rewrite lookup_delete_eq.
    + intros key H100 H1000. unfold s', store_delete; cbn.
      rewrite lookup_delete_ne by congruence.
      now rewrite lookup_delete_ne by congruence.
  - intros r b1 Hcreate Hr.
    unfold mutate, try_except, bind, has_client, has_cache,
      client_create_customer, cache_delete, on_client, on_cache, ret, w,
      mkWorld; cbn.
    fold data. rewrite Hcreate. destruct r as [res|e]; cbn.
    + rewrite Hr. eexists. split; [reflexivity|]. cbn. repeat split. discriminate.
    + eexists. split; [reflexivity|]. cbn. repeat split. discriminate.
Qed.

(** ** The filter *)

Section Filter.








Lemma returned_nil cls term : returned cls term [] = [].
Proof. destruct cls; cbn; now rewrite ?andb_false_r. Qed.

End Filter.

Section FilterOnFetch.
Context {C B : Type} `{CacheManager C} `{GoManageClient B}.

Lemma fetch_working_set cls limit term (w : World C B) ws :
  working_set cls limit term w ws ->
  fst (fetch cls limit term w) = Ret (returned cls term ws).
Proof.
  intros [c b t v c' Hget Hv | c b t v c' l b' c'' Hget Hv Hlist Hset
          | b t l b' Hlist].
  - now rewrite (fetch_hit _ _ _ _ _ _ _ _ Hget Hv).
  - destruct l as [|x l].
    + rewrite (fetch_miss_empty _ _ _ _ _ _ _ _ _ Hget Hv Hlist).
      now rewrite returned_nil.
    + now rewrite (fetch_miss_stored _ _ _ _ _ _ _ _ _ _ _
                     Hget Hv Hlist eq_refl (Hset eq_refl)).
  - now rewrite (fetch_uncached _ _ _ _ _ _ _ Hlist).
Qed.

End FilterOnFetch.

Section LetterCase.









End LetterCase.


(** ** One cache entry per term *)

Lemma cache_key_of_term cls limit t1 t2 :
  t1 <> EmptyString -> t2 <> EmptyString -> t1 <> t2 ->
  cache_key cls limit (Some t1) <> cache_key cls limit (Some t2).
Proof.
  intros H1 H2 Hne Heq. apply cache_key_term_inj in Heq. cbn in Heq.
  destruct (String.eqb_spec t1 EmptyString); [congruence|].
  destruct (String.eqb_spec t2 EmptyString); congruence.
Qed.

(** C2, as the code has it. The key embeds the term, so two fetches of one
    class and limit with two distinct non-empty terms use two different
    keys and neither reads the entry of the other: starting from a store
    with no entry, each of them misses, makes its own list call and stores
    the full unfiltered answer under its own key, and each returns its own
    working set through the filter of its own term. *)
Theorem C2_distinct_terms_use_distinct_entries
  {B : Type} `{GoManageClient B}
  (cls : ResourceClass) (limit : Z) (t1 t2 : string)
  (clock : Z) (b : B) (t : list Event)
  (rs1 : list Record) (b1 : B) (rs2 : list Record) (b2 : B) (dt : N) :
  t1 <> EmptyString -> t2 <> EmptyString -> t1 <> t2 ->
  list_call cls limit (Some t1) b = (Ret rs1, b1) -> rs1 <> [] ->
  list_call cls limit (Some t2) b1 = (Ret rs2, b2) -> rs2 <> [] ->
  let k1 := cache_key cls limit (Some t1) in
  let k2 := cache_key cls limit (Some t2) in
  let w0 := mkWorld (Some (empty_store clock)) (Some b) t in
  let w1 := snd (fetch cls limit (Some t1) w0) in
  let s1 := store_set k1 rs1 (ttl cls) (empty_store clock) in
  k1 <> k2 /\
  fst (fetch cls limit (Some t1) w0) = Ret (returned cls (Some t1) rs1) /\
  fetch cls limit (Some t2) (tick dt w1)
  = (Ret (returned cls (Some t2) rs2),
     mkWorld (Some (store_set k2 rs2 (ttl cls) (advance dt s1))) (Some b2)
       (CacheSet k2 rs2 (ttl cls)
        :: list_event cls limit (Some t2) (Ret rs2) :: CacheGet k2
        :: CacheSet k1 rs1 (ttl cls)
        :: list_event cls limit (Some t1) (Ret rs1) :: CacheGet k1 :: t)) /\
  entries (store_set k2 rs2 (ttl cls) (advance dt s1)) !! k1
  = Some (rs1, clock + ttl cls) /\
  entries (store_set k2 rs2 (ttl cls) (advance dt s1)) !! k2
  = Some (rs2, clock + Z.of_N dt + ttl cls).
Proof.
  intros Ht1 Ht2 Hne Hl1 Hrs1 Hl2 Hrs2 k1 k2 w0 w1 s1.
  assert (Hk : k1 <> k2) by now apply cache_key_of_term.
  assert (Hmiss1 : cached_truthy (visible (empty_store clock) k1) = false)
    by now rewrite visible_empty.
  pose proof (fetch_store_miss cls limit (Some t1) _ b t _ b1 Hmiss1 Hl1)
    as Hrun1.
  destruct rs1 as [|x1 rs1]; [congruence|].
  destruct rs2 as [|x2 rs2]; [congruence|].
  fold k1 in Hrun1. fold w0 in Hrun1.
  assert (Hmiss2 : cached_truthy (visible (advance dt s1) k2) = false).
  { unfold visible, advance, s1, store_set, empty_store; cbn.
    rewrite lookup_insert_ne by exact Hk. now rewrite lookup_empty. }
  split; [exact Hk|]. split; [now rewrite Hrun1|]. split; [|split].
  - unfold w1. rewrite Hrun1. unfold tick.
    cbn [snd cache_manager gomanage_client trace mkWorld fmap option_fmap
         option_map].
    fold s1.
    now rewrite (fetch_store_miss cls limit (Some t2) _ b1 _ _ b2 Hmiss2 Hl2).
  - unfold store_set, advance, s1, empty_store; cbn.
    rewrite lookup_insert_ne by congruence. now rewrite lookup_insert_eq.
  - unfold store_set, advance, s1, empty_store; cbn.
    now rewrite lookup_insert_eq.
Qed.

(** ** Required arguments of the mutation *)

(** C9, as the code has it. [business_name] and [vat_number] are required
    arguments of the mutation, positional parameters of [mutate]: a call
    that lacks one of them raises before the body of [mutate] is entered,
    with no payload and no call on a collaborator. [mutate] validates
    neither: when both are supplied, whatever their values, the call
    returns a payload, and with a client in the context it sends them to
    [create_customer] as they are. *)
Theorem C9_required_arguments_are_bound_not_validated
  {C B : Type} `{CacheManager C} `{GoManageClient B}
  (args : Record) (w : World C B) :
  (args !! "business_name" = None \/ args !! "vat_number" = None ->
   exists e, mutate_call args w = (Raise e, w)) /\
  (forall business_name vat_number,
      args !! "business_name" = Some business_name ->
      args !! "vat_number" = Some vat_number ->
      let kwargs := delete "business_name" (delete "vat_number" args) in
      let data := customer_data business_name vat_number kwargs in
      (exists payload w', mutate_call args w = (Ret payload, w')) /\
      data !! "business_name" = Some business_name /\
      data !! "vat_number" = Some vat_number /\
      forall b r b1,
        gomanage_client w = Some b ->
        create_customer data b = (r, b1) ->
        exists later,
          trace (snd (mutate_call args w))
          = (later ++ CreateCustomerCall data r :: trace w)%list).
Proof.
  split.
  - intros [Hbn|Hvn]; unfold mutate_call, raise.
    + rewrite Hbn. eauto.
    + rewrite Hvn. destruct (args !! "business_name"); eauto.
  - intros bn vn Hbn Hvn kwargs data.
    unfold mutate_call. rewrite Hbn, Hvn. fold kwargs.
    split; [|split; [|split]].
    + unfold mutate, try_except, ret.
      match goal with |- context [bind ?m ?k w] =>
        destruct (bind m k w) as [[payload|e] w'] end; eauto.
    + reflexivity.
    + unfold data, customer_data.
      rewrite lookup_insert_ne by discriminate. apply lookup_insert_eq.
    + intros b r b1 Hb Hcreate. destruct w as [c cl t]. cbn in Hb. subst cl.
      unfold mutate, try_except, bind, has_client, has_cache,
        client_create_customer, cache_delete, on_client, on_cache, ret; cbn.
      fold kwargs. fold data. rewrite Hcreate.
      destruct r as [res|e]; cbn; [|now exists []].
      destruct (created_truthy res); cbn; [|now exists []].
      destruct c as [c|]; cbn; [|now exists []].
      destruct (cm_delete "customers_100_all" c) as [[[]|e] c1]; cbn.
      * destruct (cm_delete "customers_1000_all" c1) as [[[]|e] c2]; cbn;
          now eexists [_; _].
      * now eexists [_].
Qed.

(** ** Hits do not write *)

Section Unfiltered.
Context {B : Type} `{GoManageClient B}.

Lemma list_event_writes_no_key key cls limit term r :
  writes_key key (list_event cls limit term r) = false.
Proof. destruct cls; reflexivity. Qed.

Lemma fetch_keeps_entries_unfiltered cls limit term (w : World TTLStore B) :
  entries_unfiltered w ->
  entries_unfiltered (snd (fetch cls limit term w)).
Proof.
  intros Hinv. destruct w as [[s|] [b|] t].
  - change (Build_World (Some s) (Some b) t)
      with (mkWorld (Some s) (Some b) t) in *.
    destruct (cached_truthy (visible s (cache_key cls limit term))) eqn:Hv.
    + destruct (visible s (cache_key cls limit term)) as [l|] eqn:Hvis;
        [|discriminate].
      rewrite (fetch_store_hit cls limit term s b t l Hvis Hv).
      intros s' key value expires_at [= <-] Hentry.
      apply populated_before; [reflexivity|].
      now apply (Hinv s key value expires_at).
    + destruct (list_call cls limit term b) as [r b'] eqn:Hlist.
      rewrite (fetch_store_miss cls limit term s b t r b' Hv Hlist).
      assert (Hold : forall key value expires_at,
                 entries s !! key = Some (value, expires_at) ->
                 populated key value
                   (list_event cls limit term r
                    :: CacheGet (cache_key cls limit term) :: t)).
      { intros key value expires_at Hentry.
        apply populated_before; [apply list_event_writes_no_key|].
        apply populated_before; [reflexivity|].
        now apply (Hinv s key value expires_at). }
      destruct r as [[|x rs]|e].
      * intros s' key value expires_at [= <-] Hentry. eauto.
      * intros s' key value expires_at [= <-] Hentry. cbn in Hentry.
        destruct (decide (cache_key cls limit term = key)) as [<-|Hne].
        -- rewrite lookup_insert_eq in Hentry. injection Hentry as <- _.
           now apply (populated_now _ _ cls limit term).
        -- rewrite lookup_insert_ne in Hentry by exact Hne.
           apply populated_before; [|eauto].
           cbn. now apply String.eqb_neq.
      * intros s' key value expires_at [= <-] Hentry. eauto.
  - rewrite fetch_without_client by reflexivity. exact Hinv.
  - change (Build_World None (Some b) t)
      with (mkWorld (@None TTLStore) (Some b) t) in *.
    destruct (list_call cls limit term b) as [r b'] eqn:Hlist.
    rewrite (fetch_uncached _ _ _ _ _ _ _ Hlist).
    intros s' key value expires_at [=].
  - rewrite fetch_without_client by reflexivity. exact Hinv.
Qed.

Lemma tick_keeps_entries_unfiltered dt (w : World TTLStore B) :
  entries_unfiltered w -> entries_unfiltered (tick dt w).
Proof.
  intros Hinv s' key value expires_at Hs' Hentry.
  unfold tick in Hs'. cbn in Hs'.
  destruct (cache_manager w) as [s|] eqn:Hs; [|discriminate].
  injection Hs' as <-. now apply (Hinv s key value expires_at).
Qed.

Lemma serve_all_keeps_entries_unfiltered rqs (w : World TTLStore B) :
  entries_unfiltered w -> entries_unfiltered (serve_all rqs w).
Proof.
  revert w. induction rqs as [|rq rqs IH]; intros w Hinv; [exact Hinv|].
  cbn. apply IH. destruct rq as [cls limit term|dt]; cbn.
  - now apply fetch_keeps_entries_unfiltered.
  - now apply tick_keeps_entries_unfiltered.
Qed.

End Unfiltered.

(** C10. A [fetch] that finds its key in the store makes one [get] and no
    other cache call, and leaves the store as it was: what it returns
    through the filter is not written back. Hence, over any sequence of
    fetches (of any class, limit and term, with any time passing in
    between) started from a store with no entry, every entry of the store
    is the full sequence a list call of the client returned to the miss
    that last populated its key. *)
Theorem C10_hit_path_never_writes
  {B : Type} `{GoManageClient B} :
  (forall cls limit term s (b : B) t l,
      visible s (cache_key cls limit term) = Some l ->
      l <> [] ->
      fetch cls limit term (mkWorld (Some s) (Some b) t)
      = (Ret (returned cls term l),
         mkWorld (Some s) (Some b) (CacheGet (cache_key cls limit term) :: t))
      /\ count is_cache_write (CacheGet (cache_key cls limit term) :: t)
         = count is_cache_write t) /\
  (forall clock (b : option B) t rqs,
      entries_unfiltered
        (serve_all rqs (mkWorld (Some (empty_store clock)) b t))) /\
  (forall (w : World TTLStore B) rqs,
      entries_unfiltered w -> entries_unfiltered (serve_all rqs w)).
Proof.
  split; [|split].
  - intros cls limit term s b t l Hvis Hl. split; [|reflexivity].
    apply fetch_store_hit; [exact Hvis|]. now destruct l.
  - intros clock b t rqs. apply serve_all_keeps_entries_unfiltered.
    intros s key value expires_at [= <-] Hentry. cbn in Hentry.
    now rewrite lookup_empty in Hentry.
  - intros w rqs. apply serve_all_keeps_entries_unfiltered.
Qed.

(** ** Instances on the sample data *)

Lemma C7_key_witness :
  cache_key Customer 100 (Some "foo") <> cache_key Customer 200 (Some "foo").
Proof.
  apply (proj2 (C7_key_is_function_of_class_limit_term
                  (C := TTLStore) (B := Script) Customer 100 (Some "foo"))).
  lia.
Defined.

Lemma C6_never_raises_witness :
  cm_get (cache_key Customer 100 None) unreachable
  = (Raise (Exception "connection refused"), unreachable) /\
  fst (fetch Customer 100 None
         (mkWorld (Some unreachable) (Some sample_client) []))
  = Ret [].
Proof.
  split; [reflexivity|].
  destruct (C6_fetch_never_raises (C := Unreachable) (B := Script)
              Customer 100 None) as (_ & _ & _ & _ & Hget & _).
  apply (Hget unreachable sample_client [] (Exception "connection refused")
              unreachable).
  reflexivity.
Defined.

Lemma C8_lookup_witness :
  exists l w',
    fetch Customer 1000 None sample_world = (Ret l, w') /\
    resolve_customer 8 sample_world
    = (Ret (first_with "customer_id" (PInt 8) l), w').
Proof.
  exact (proj1 (C8_lookup_is_scan_of_listing_1000 sample_world) 8).
Defined.

Lemma C1_read_through_witness :
  list_call Customer 10 None sample_client
  = (Ret [acme; bar_ltd],
     {| list_replies := [Ret [bar_ltd]]; create_replies := [Ret (Some acme)] |})
  /\ Z.of_N 60 < ttl Customer
  /\ fst (fetch Customer 10 None
            (tick 60 (snd (fetch Customer 10 None sample_world))))
     = Ret [acme; bar_ltd]
  /\ count is_backend_call
       (trace (snd (fetch Customer 10 None sample_world))) = 1%nat.
Proof.
  split; [reflexivity|]. split; [reflexivity|].
  assert (Hlist : list_call Customer 10 None sample_client
                  = (Ret [acme; bar_ltd],
                     {| list_replies := [Ret [bar_ltd]];
                        create_replies := [Ret (Some acme)] |}))
    by reflexivity.
  assert (Hdt : Z.of_N 60 < ttl Customer) by reflexivity.
  destruct (C1_read_through Customer 10 None 0 sample_client [] _ _ Hlist)
    as (Hone & _ & Hrs).
  split; [|exact Hone].
  destruct (Hrs [acme; bar_ltd] (eq_refl _) ltac:(discriminate))
    as (_ & _ & _ & _ & Hsecond).
  destruct (Hsecond 60%N Hdt) as (Hrun & _).
  unfold sample_world. rewrite Hrun. reflexivity.
Defined.

Lemma C5_empty_result_witness :
  cached_truthy (visible (empty_store 0) (cache_key Product 100 None)) = false
  /\ list_call Product 100 None late_client
     = (Ret [], {| list_replies := [Ret [acme]];
                   create_replies := [Ret None] |})
  /\ fetch Product 100 None
       (mkWorld (Some (empty_store 0)) (Some late_client) [])
     = (Ret [],
        mkWorld (Some (empty_store 0))
          (Some {| list_replies := [Ret [acme]];
                   create_replies := [Ret None] |})
          [GetProducts 100 (Ret []); CacheGet (cache_key Product 100 None)]).
Proof.
  split; [reflexivity|]. split; [reflexivity|].
  assert (Hmiss : cached_truthy
                    (visible (empty_store 0) (cache_key Product 100 None))
                  = false) by reflexivity.
  assert (Hlist : list_call Product 100 None late_client
                  = (Ret [], {| list_replies := [Ret [acme]];
                                create_replies := [Ret None] |}))
    by reflexivity.
  exact (proj1 (C5_empty_result_is_not_cached Product 100 None (empty_store 0)
                  late_client [] _ Hmiss Hlist)).
Defined.

Lemma C4_create_witness :
  create_customer (customer_data (PStr "Acme") (PStr "ES123") ∅) sample_client
  = (Ret (Some acme),
     {| list_replies := list_replies sample_client; create_replies := [] |})
  /\ created_truthy (Some acme) = true
  /\ visible stocked_store "customers_100_all" = Some [acme; bar_ltd]
  /\ success <$> match fst (mutate (PStr "Acme") (PStr "ES123") ∅ stocked_world)
                 with Ret payload => Some payload | Raise _ => None end
     = Some true
  /\ (visible <$> cache_manager
                    (snd (mutate (PStr "Acme") (PStr "ES123") ∅ stocked_world)))
     = Some (visible (store_delete "customers_1000_all"
                        (store_delete "customers_100_all" stocked_store))).
Proof.
  split; [reflexivity|]. split; [reflexivity|]. split; [reflexivity|].
  destruct (C4_create_invalidates_default_listings (PStr "Acme") (PStr "ES123")
              ∅ stocked_store sample_client []) as (_ & Hok & _).
  assert (Hcreate :
            create_customer (customer_data (PStr "Acme") (PStr "ES123") ∅)
              sample_client
            = (Ret (Some acme),
               {| list_replies := list_replies sample_client;
                  create_replies := [] |})) by reflexivity.
  assert (Htruthy : created_truthy (Some acme) = true) by reflexivity.
  destruct (Hok _ _ Hcreate Htruthy) as (Hrun & _).
  unfold stocked_world. rewrite Hrun. split; reflexivity.
Defined.




Lemma C2_distinct_terms_witness :
  "foo" <> EmptyString /\ "bar" <> EmptyString /\ "foo" <> "bar"
  /\ list_call Customer 100 (Some "foo") sample_client
     = (Ret [acme; bar_ltd],
        {| list_replies := [Ret [bar_ltd]];
           create_replies := [Ret (Some acme)] |})
  /\ list_call Customer 100 (Some "bar")
       {| list_replies := [Ret [bar_ltd]];
          create_replies := [Ret (Some acme)] |}
     = (Ret [bar_ltd],
        {| list_replies := []; create_replies := [Ret (Some acme)] |})
  /\ cache_key Customer 100 (Some "foo") <> cache_key Customer 100 (Some "bar")
  /\ fst (fetch Customer 100 (Some "foo") sample_world)
     = Ret (returned Customer (Some "foo") [acme; bar_ltd]).
Proof.
  assert (H1 : "foo" <> EmptyString) by discriminate.
  assert (H2 : "bar" <> EmptyString) by discriminate.
  assert (H3 : "foo" <> "bar") by discriminate.
  assert (Hl1 : list_call Customer 100 (Some "foo") sample_client
                = (Ret [acme; bar_ltd],
                   {| list_replies := [Ret [bar_ltd]];
                      create_replies := [Ret (Some acme)] |}))
    by reflexivity.
  assert (Hl2 : list_call Customer 100 (Some "bar")
                  {| list_replies := [Ret [bar_ltd]];
                     create_replies := [Ret (Some acme)] |}
                = (Ret [bar_ltd],
                   {| list_replies := [];
                      create_replies := [Ret (Some acme)] |}))
    by reflexivity.
  destruct (C2_distinct_terms_use_distinct_entries Customer 100 "foo" "bar" 0
              sample_client [] _ _ _ _ 0%N H1 H2 H3
              Hl1 ltac:(discriminate) Hl2 ltac:(discriminate))
    as (Hkeys & Hfirst & _).
  split; [exact H1|]. split; [exact H2|]. split; [exact H3|].
  split; [exact Hl1|]. split; [exact Hl2|]. split; [exact Hkeys|].
  exact Hfirst.
Defined.

Lemma C9_required_arguments_witness :
  args_without_vat !! "vat_number" = None
  /\ exists e, mutate_call args_without_vat sample_world = (Raise e, sample_world).
Proof.
  split; [reflexivity|].
  apply (proj1 (C9_required_arguments_are_bound_not_validated
                  args_without_vat sample_world)).
  right. reflexivity.
Defined.

Lemma C10_hit_witness :
  visible stocked_store (cache_key Customer 10 (Some "acme")) = None
  /\ visible stocked_store (cache_key Customer 10 None) = Some [acme]
  /\ fetch Customer 10 None stocked_world
     = (Ret [acme],
        mkWorld (Some stocked_store) (Some sample_client)
          [CacheGet (cache_key Customer 10 None)]).
Proof.
  split; [reflexivity|]. split; [reflexivity|].
  destruct (C10_hit_path_never_writes (B := Script)) as (Hhit & _).
  assert (Hvis : visible stocked_store (cache_key Customer 10 None)
                 = Some [acme]) by reflexivity.
  exact (proj1 (Hhit Customer 10 None stocked_store sample_client [] [acme]
                  Hvis ltac:(discriminate))).
Defined.

(** ** Where the description and the code part *)

(** C2, as stated, fails: two searches at one limit do not share a cache
    entry. From an empty store, a search for [foo] and then one for [bar]
    at limit 100 use the keys [customers_100_foo] and [customers_100_bar];
    the second misses, makes a second list call, and the store ends with
    two entries. *)
Lemma C2_counterexample :
  let w1 := snd (fetch Customer 100 (Some "foo") sample_world) in
  let w2 := snd (fetch Customer 100 (Some "bar") w1) in
  cache_key Customer 100 (Some "foo") <> cache_key Customer 100 (Some "bar")
  /\ cache_keys (trace w2)
     = ["customers_100_bar"; "customers_100_bar";
        "customers_100_foo"; "customers_100_foo"]
  /\ count is_backend_call (trace w2) = 2%nat
  /\ (fun s => size (entries s)) <$> cache_manager w2 = Some 2%nat.
Proof.
  cbv zeta. split; [|split; [|split]].
  - apply cache_key_of_term; discriminate.
  - vm_compute. reflexivity.
  - vm_compute. reflexivity.
  - vm_compute. reflexivity.
Qed.

(** C9, as stated, fails: a mutation call that lacks [vat_number] yields no
    payload at all, so none with [success = false]; the call raises. *)
Lemma C9_counterexample :
  args_without_vat !! "vat_number" = None
  /\ fst (mutate_call args_without_vat sample_world)
     = Raise (TypeError "mutate() missing required positional argument")
  /\ ~ exists payload w',
        mutate_call args_without_vat sample_world = (Ret payload, w')
        /\ success payload = false.
Proof.
  split; [reflexivity|]. split; [reflexivity|].
  intros (payload & w' & Hrun & _). discriminate Hrun.
Qed.


(** * Further properties of the resolvers *)

(** ** Keys never collide across classes, limits or terms *)

Section KeyFacts.

Lemma uint_has_no_underscore (d : Decimal.uint) :
  has_char "_" (NilEmpty.string_of_uint d) = false.
Proof. induction d; cbn; auto. Qed.

Lemma str_int_has_no_underscore (n : Z) : has_char "_" (str_int n) = false.
Proof.
  unfold str_int. destruct (Z.to_int n) as [d|d]; cbn.
  - destruct d; try reflexivity; cbn; apply uint_has_no_underscore.
  - destruct d; try reflexivity; cbn; apply uint_has_no_underscore.
Qed.

Lemma prefix_has_no_underscore cls : has_char "_" (prefix cls) = false.
Proof. destruct cls; reflexivity. Qed.

(** A string is cut at its first underscore in one way only. *)
Lemma cut_at_underscore (a b x y : string) :
  has_char "_" a = false -> has_char "_" b = false ->
  a +:+ String "_" x = b +:+ String "_" y -> a = b /\ x = y.
Proof.
  revert b. induction a as [|c a IH]; intros [|d b] Ha Hb Heq.
  - injection Heq as ->. auto.
  - rewrite append_cons in Heq. injection Heq as <- _.
    cbn in Hb. discriminate.
  - rewrite append_cons in Heq. injection Heq as -> _.
    cbn in Ha. discriminate.
  - rewrite !append_cons in Heq. injection Heq as -> Heq.
    cbn in Ha, Hb. apply orb_false_iff in Ha as [_ Ha].
    apply orb_false_iff in Hb as [_ Hb].
    destruct (IH b Ha Hb Heq) as [-> ->]. auto.
Qed.

Lemma prefix_inj cls cls' : prefix cls = prefix cls' -> cls = cls'.
Proof. destruct cls, cls'; cbn; intros Heq; congruence. Qed.

End KeyFacts.

(** X1. Two listings share a cache key exactly when they are of the same
    class, at the same limit, with the same term once an absent or empty
    term is read as [all]: no key of one class, limit or term is ever the
    key of another. *)
Theorem X1_cache_key_injective
  (cls cls' : ResourceClass) (limit limit' : Z) (term term' : option string) :
  cache_key cls limit term = cache_key cls' limit' term' <->
  cls = cls' /\ limit = limit' /\ opt_or term "all" = opt_or term' "all".
Proof.
  split.
  - unfold cache_key. intros Heq.
    apply cut_at_underscore in Heq as [Hp Heq];
      try apply prefix_has_no_underscore.
    apply cut_at_underscore in Heq as [Hl Ht];
      try apply str_int_has_no_underscore.
    apply prefix_inj in Hp. apply str_int_inj in Hl. auto.
  - intros (-> & -> & Ht). unfold cache_key. now rewrite Ht.
Qed.

Lemma X1_cache_key_witness :
  cache_key Customer 100 None = cache_key Customer 100 (Some "all")
  /\ cache_key Customer 100 None <> cache_key Product 100 None
  /\ cache_key Customer 1 (Some "0_x") <> cache_key Customer 10 (Some "x").
Proof.
  split; [|split].
  - apply (proj2 (X1_cache_key_injective Customer Customer 100 100 None
                    (Some "all"))). auto.
  - intros Heq.
    apply (proj1 (X1_cache_key_injective Customer Product 100 100 None None))
      in Heq as (Hcls & _). discriminate Hcls.
  - intros Heq.
    apply (proj1 (X1_cache_key_injective Customer Customer 1 10 (Some "0_x")
                    (Some "x"))) in Heq as (_ & Hl & _). discriminate Hl.
Defined.

(** ** Terms that fall on the default key *)

(** X2. An empty search string is no search: for customers and products
    a [fetch] with the term [''] runs exactly as one with no term (same
    key, same calls, no filtering). And whatever term reads as [all] (none,
    the empty one, or the word [all] itself) is served by the entry of the
    unfiltered listing when that entry is in the cache: one [get] on the
    default key, no call on the client. *)
Theorem X2_empty_and_all_terms_use_the_default_entry
  {C B : Type} `{CacheManager C} `{GoManageClient B}
  (cls : ResourceClass) (limit : Z) :
  (cls <> Invoice ->
   forall w : World C B,
     fetch cls limit (Some EmptyString) w = fetch cls limit None w) /\
  (forall term (c : C) (b : B) t v c',
      opt_or term "all" = "all" ->
      cm_get (cache_key cls limit None) c = (Ret v, c') ->
      cached_truthy v = true ->
      fetch cls limit term (mkWorld (Some c) (Some b) t)
      = (Ret (returned cls term (cached_list v)),
         mkWorld (Some c') (Some b)
           (CacheGet (cache_key cls limit None) :: t))).
Proof.
  split.
  - intros Hcls w. destruct cls; [reflexivity | reflexivity | congruence].
  - intros term c b t v c' Hterm Hget Hv.
    assert (Hkey : cache_key cls limit term = cache_key cls limit None)
      by (unfold cache_key; now rewrite Hterm).
    rewrite <- Hkey in *. now apply fetch_hit.
Qed.

Lemma X2_default_entry_witness :
  Customer <> Invoice
  /\ opt_or (Some "all") "all" = "all"
  /\ fetch Customer 10 (Some "all") stocked_world
     = (Ret [],
        mkWorld (Some stocked_store) (Some sample_client)
          [CacheGet (cache_key Customer 10 None)])
  /\ fetch Customer 10 (Some EmptyString) stocked_world
     = fetch Customer 10 None stocked_world.
Proof.
  assert (Hcls : Customer <> Invoice) by discriminate.
  assert (Hall : opt_or (Some "all") "all" = "all") by reflexivity.
  assert (Hget : cm_get (cache_key Customer 10 None) stocked_store
                 = (Ret (Some [acme]), stocked_store)) by reflexivity.
  assert (Hv : cached_truthy (Some [acme]) = true) by reflexivity.
  destruct (X2_empty_and_all_terms_use_the_default_entry
              (C := TTLStore) (B := Script) Customer 10) as (Hempty & Hdflt).
  split; [exact Hcls|]. split; [exact Hall|]. split.
  - unfold stocked_world.
    rewrite (Hdflt (Some "all") stocked_store sample_client [] _ _
               Hall Hget Hv).
    reflexivity.
  - exact (Hempty Hcls stocked_world).
Defined.

(** ** What the filter returns on any records *)

Section FilterEdges.

Lemma comprehension_sublist cond (l l' : list Record) :
  comprehension cond l = Ret l' -> sublist l' l.
Proof.
  revert l'. induction l as [|x l IH]; intros l'; cbn.
  - intros [= <-]. constructor.
  - destruct (cond x) as [keep|e]; cbn; [|discriminate].
    destruct (comprehension cond l) as [rest|e]; cbn; [|discriminate].
    intros [= <-]. destruct keep.
    + apply sublist_skip. now apply IH.
    + apply sublist_cons. now apply IH.
Qed.

Lemma returned_sublist cls term (ws : list Record) :
  sublist (returned cls term ws) ws.
Proof.
  assert (Hfilter :
    sublist
      (if opt_truthy term && nonempty ws then
         match comprehension (matches cls (lower (opt_or term EmptyString))) ws
         with Ret l => l | Raise _ => [] end
       else ws) ws).
  { destruct (opt_truthy term && nonempty ws); [|reflexivity].
    destruct (comprehension _ ws) as [l|e] eqn:Hc.
    - now apply comprehension_sublist in Hc.
    - apply sublist_nil_l. }
  destruct cls; [exact Hfilter | exact Hfilter | reflexivity].
Qed.

Lemma comprehension_raises cond (l : list Record) r :
  In r l -> (exists e, cond r = Raise e) ->
  exists e, comprehension cond l = Raise e.
Proof.
  intros Hin Hr. induction l as [|x l IH]; [destruct Hin|]. cbn.
  destruct (cond x) as [keep|e] eqn:Hx; cbn; [|eauto].
  destruct Hin as [->|Hin].
  - destruct Hr as [e He]. congruence.
  - destruct (IH Hin) as [e ->]. cbn. eauto.
Qed.

Lemma leading_field_raises cls needle (r : Record) v :
  cls <> Invoice ->
  r !! leading_field cls = Some v -> truthy v = true -> is_str v = false ->
  exists e, matches cls needle r = Raise e.
Proof.
  intros Hcls Hv Ht Hs.
  assert (Hfield : exists e,
             field_contains needle r (leading_field cls) = Raise e).
  { unfold field_contains, dict_get, py_or. rewrite Hv. cbn. rewrite Ht.
    destruct v; cbn in *; try discriminate; eauto. }
  destruct Hfield as [e He].
  destruct cls; [| |congruence]; cbn in He;
    unfold matches, customer_matches, product_matches, or_else;
    rewrite He; cbn; eauto.
Qed.

End FilterEdges.

(** X3. Whatever the records hold, a [fetch] returns a subsequence of its
    working set: the filter drops records, and never adds, changes or
    reorders one. *)
Theorem X3_fetch_returns_subsequence_of_working_set
  {C B : Type} `{CacheManager C} `{GoManageClient B}
  (cls : ResourceClass) (limit : Z) (term : option string)
  (w : World C B) (ws : list Record) :
  working_set cls limit term w ws ->
  exists l, fst (fetch cls limit term w) = Ret l /\ sublist l ws.
Proof.
  intros Hws. exists (returned cls term ws). split.
  - now apply fetch_working_set.
  - apply returned_sublist.
Qed.

(** X4. One malformed record blanks a search. For customers and products,
    when some record of the working set holds a truthy value that is not a
    string in the field the search looks at first ([business_name],
    [reference]), a [fetch] with a non-empty term returns the empty
    sequence, whatever the other records hold: the [AttributeError] of
    [.lower()] is swallowed by the [except] clause. *)
Theorem X4_malformed_record_blanks_search
  {C B : Type} `{CacheManager C} `{GoManageClient B}
  (cls : ResourceClass) (limit : Z) (term : string)
  (w : World C B) (ws : list Record) (r : Record) (v : pyval) :
  cls <> Invoice ->
  term <> EmptyString ->
  working_set cls limit (Some term) w ws ->
  In r ws ->
  r !! leading_field cls = Some v -> truthy v = true -> is_str v = false ->
  fst (fetch cls limit (Some term) w) = Ret [].
Proof.
  intros Hcls Hterm Hws Hin Hv Ht Hs.
  rewrite (fetch_working_set _ _ _ _ _ Hws). f_equal.
  assert (Hblank :
    (if opt_truthy (Some term) && nonempty ws then
       match comprehension (matches cls (lower (opt_or (Some term) EmptyString))) ws
       with Ret l => l | Raise _ => [] end
     else ws) = []).
  { cbn [opt_truthy opt_or].
    destruct (String.eqb_spec term EmptyString) as [|_]; [congruence|].
    destruct ws as [|x ws]; [destruct Hin|]. cbn [negb andb nonempty].
    destruct (comprehension_raises (matches cls (lower term)) (x :: ws) r Hin)
      as [e ->]; [|reflexivity].
    now apply (leading_field_raises cls _ r v). }
  destruct cls; [exact Hblank | exact Hblank | congruence].
Qed.

(** The working set of a first search on the odd client. *)
Lemma odd_working_set :
  working_set Customer 100 (Some "acme") odd_world [acme; odd_one; bar_ltd].
Proof.
  unfold odd_world.
  apply (working_miss (C := TTLStore) (B := Script) Customer 100
           (Some "acme") (empty_store 0) odd_client [] None
           (empty_store 0) [acme; odd_one; bar_ltd]
           {| list_replies := []; create_replies := [] |}
           (store_set (cache_key Customer 100 (Some "acme"))
              [acme; odd_one; bar_ltd] (ttl Customer) (empty_store 0)));
    [reflexivity | reflexivity | reflexivity | intros _; reflexivity].
Qed.

Lemma X3_subsequence_witness :
  working_set Customer 100 (Some "acme") odd_world [acme; odd_one; bar_ltd]
  /\ exists l, fst (fetch Customer 100 (Some "acme") odd_world) = Ret l
               /\ sublist l [acme; odd_one; bar_ltd].
Proof.
  split; [exact odd_working_set|].
  exact (X3_fetch_returns_subsequence_of_working_set Customer 100 (Some "acme")
           odd_world [acme; odd_one; bar_ltd] odd_working_set).
Defined.

Lemma X4_malformed_record_witness :
  Customer <> Invoice
  /\ In odd_one [acme; odd_one; bar_ltd]
  /\ odd_one !! leading_field Customer = Some (PInt 5)
  /\ fst (fetch Customer 100 (Some "acme") odd_world) = Ret []
  /\ fst (fetch Customer 100 None odd_world) = Ret [acme; odd_one; bar_ltd].
Proof.
  assert (Hcls : Customer <> Invoice) by discriminate.
  assert (Hterm : "acme" <> EmptyString) by discriminate.
  assert (Hin : In odd_one [acme; odd_one; bar_ltd]) by (right; left; reflexivity).
  assert (Hv : odd_one !! leading_field Customer = Some (PInt 5))
    by reflexivity.
  split; [exact Hcls|]. split; [exact Hin|]. split; [exact Hv|]. split.
  - exact (X4_malformed_record_blanks_search Customer 100 "acme" odd_world
             [acme; odd_one; bar_ltd] odd_one (PInt 5)
             Hcls Hterm odd_working_set Hin Hv (eq_refl _) (eq_refl _)).
  - reflexivity.
Defined.

(** ** The calls one fetch makes *)

Lemma fetch_events_counts cls limit term new :
  fetch_events cls limit term new ->
  (count is_backend_call new <= 1)%nat /\ (count is_cache_set new <= 1)%nat /\
  count is_cache_write new = count is_cache_set new.
Proof.
  pose proof (list_event_is_backend_call cls limit term) as Hb.
  pose proof (list_event_is_no_write cls limit term) as Hw.
  intros [| |r|value _|r]; unfold count; cbn;
    rewrite ?Hb, ?(proj1 (Hw _)), ?(proj2 (Hw _)); cbn; lia.
Qed.

(** X5. Whatever the collaborators do, one [fetch] makes at most one list
    call on the client and at most one [set]; the [set], when there is one,
    stores under the key of the listing, with the expiry of the class,
    exactly the non-empty sequence the list call just returned. It never
    calls [delete] or [create_customer]: its events are nothing, a [get],
    a [get] and a list call, a [get], a list call and a [set], or (with no
    cache manager) a list call. *)
Theorem X5_fetch_makes_at_most_one_list_call_and_one_set
  {C B : Type} `{CacheManager C} `{GoManageClient B}
  (cls : ResourceClass) (limit : Z) (term : option string) (w : World C B) :
  exists new,
    trace (snd (fetch cls limit term w)) = (new ++ trace w)%list /\
    fetch_events cls limit term new /\
    (count is_backend_call new <= 1)%nat /\
    (count is_cache_set new <= 1)%nat /\
    count is_cache_write new = count is_cache_set new.
Proof.
  assert (Hshape : exists new,
             trace (snd (fetch cls limit term w)) = (new ++ trace w)%list /\
             fetch_events cls limit term new).
  { destruct w as [[c|] [b|] t].
    - change (Build_World (Some c) (Some b) t)
        with (mkWorld (Some c) (Some b) t).
      destruct (cm_get (cache_key cls limit term) c) as [[v|e] c'] eqn:Hget.
      + destruct (cached_truthy v) eqn:Hv.
        * rewrite (fetch_hit _ _ _ _ _ _ _ _ Hget Hv).
          eexists [_]. split; [reflexivity | constructor].
        * destruct (list_call cls limit term b) as [[rs|e] b'] eqn:Hlist.
          -- destruct rs as [|r rs].
             ++ rewrite (fetch_miss_empty _ _ _ _ _ _ _ _ _ Hget Hv Hlist).
                eexists [_; _]. split; [reflexivity | constructor].
             ++ destruct (cm_set (cache_key cls limit term) (r :: rs)
                            (ttl cls) c') as [[[]|e] c''] eqn:Hset.
                ** rewrite (fetch_miss_stored _ _ _ _ _ _ _ _ _ _ _
                              Hget Hv Hlist (eq_refl _) Hset).
                   eexists [_; _; _]. split; [reflexivity|].
                   now constructor.
                ** rewrite (fetch_miss_set_raises _ _ _ _ _ _ _ _ _ _ _ _
                              Hget Hv Hlist (eq_refl _) Hset).
                   eexists [_; _; _]. split; [reflexivity|].
                   now constructor.
          -- rewrite (fetch_miss_backend_raises _ _ _ _ _ _ _ _ _ _
                        Hget Hv Hlist).
             eexists [_; _]. split; [reflexivity | constructor].
      + rewrite (fetch_get_raises _ _ _ _ _ _ _ _ Hget).
        eexists [_]. split; [reflexivity | constructor].
    - rewrite fetch_without_client by reflexivity.
      exists []. split; [reflexivity | constructor].
    - change (Build_World None (Some b) t)
        with (mkWorld (@None C) (Some b) t).
      destruct (list_call cls limit term b) as [r b'] eqn:Hlist.
      rewrite (fetch_uncached _ _ _ _ _ _ _ Hlist).
      eexists [_]. split; [reflexivity | constructor].
    - rewrite fetch_without_client by reflexivity.
      exists []. split; [reflexivity | constructor]. }
  destruct Hshape as (new & Htrace & Hnew). exists new.
  split; [exact Htrace|]. split; [exact Hnew|].
  now apply (fetch_events_counts cls limit term).
Qed.

(** X6. On the store, a [fetch] touches no entry but its own. Either the
    store is left exactly as it was, or the [fetch] missed, the list call
    of the client returned a non-empty sequence, and the store is the old
    one with that very sequence set under the key of the listing, expiring
    one expiry of the class from now. In both cases the clock and every
    entry under another key are as before. *)
Theorem X6_fetch_touches_only_its_own_entry
  {B : Type} `{GoManageClient B}
  (cls : ResourceClass) (limit : Z) (term : option string)
  (s : TTLStore) (b : option B) (t : list Event) :
  exists s',
    cache_manager (snd (fetch cls limit term (mkWorld (Some s) b t))) = Some s'
    /\ now s' = now s
    /\ (forall key, key <> cache_key cls limit term ->
                    entries s' !! key = entries s !! key)
    /\ (s' = s
        \/ exists client value client',
             b = Some client /\
             cached_truthy (visible s (cache_key cls limit term)) = false /\
             list_call cls limit term client = (Ret value, client') /\
             value <> [] /\
             s' = store_set (cache_key cls limit term) value (ttl cls) s /\
             entries s' !! cache_key cls limit term
             = Some (value, now s + ttl cls)).
Proof.
  destruct b as [b|].
  - destruct (cached_truthy (visible s (cache_key cls limit term))) eqn:Hv.
    + destruct (visible s (cache_key cls limit term)) as [l|] eqn:Hvis;
        [|discriminate].
      rewrite (fetch_store_hit cls limit term s b t l Hvis Hv).
      exists s. cbn. auto.
    + destruct (list_call cls limit term b) as [r b'] eqn:Hlist.
      rewrite (fetch_store_miss cls limit term s b t r b' Hv Hlist).
      destruct r as [[|x rs]|e]; try (exists s; cbn; now auto).
      exists (store_set (cache_key cls limit term) (x :: rs) (ttl cls) s).
      cbn. split; [reflexivity|]. split; [reflexivity|]. split.
      * intros key Hkey. now rewrite lookup_insert_ne by congruence.
      * right. exists b, (x :: rs), b'.
        repeat split; try reflexivity; try assumption; try discriminate.
        apply lookup_insert_eq.
  - rewrite fetch_without_client by reflexivity. exists s. cbn. auto.
Qed.

(** ** What the mutation reports *)

Ltac run_mutate :=
  unfold mutate, try_except, bind, has_client, has_cache,
    client_create_customer, cache_delete, on_client, on_cache, ret, mkWorld;
  cbn.

Ltac finish_report :=
  cbn; split; [discriminate|];
  split; [first [discriminate
                | intros _; split; [reflexivity | eauto 10]]|];
  split; [first [discriminate | intros _; reflexivity] | discriminate].

(** X7. The mutation always returns a payload with a message, never an
    exception. It reports success only when [create_customer] was called
    on the client with the [customer_data] dictionary and returned a truthy
    result, and then the payload carries that dictionary; a payload that
    reports failure carries no customer. With no client in the context the
    payload is the failure [GoManage client no disponible] and nothing is
    called. *)
Theorem X7_mutate_reports_success_only_after_create
  {C B : Type} `{CacheManager C} `{GoManageClient B}
  (business_name vat_number : pyval) (kwargs : Record) (w : World C B) :
  let data := customer_data business_name vat_number kwargs in
  exists payload w',
    mutate business_name vat_number kwargs w = (Ret payload, w') /\
    message payload <> EmptyString /\
    (success payload = true ->
     customer payload = Some data /\
     exists b res b1,
       gomanage_client w = Some b /\
       create_customer data b = (Ret res, b1) /\
       created_truthy res = true) /\
    (success payload = false -> customer payload = None) /\
    (gomanage_client w = None ->
     payload = {| customer := None; success := false;
                  message := "GoManage client no disponible" |} /\
     w' = w).
Proof.
  intros data. destruct w as [c [b|] t].
  - destruct (create_customer data b) as [[res|e] b1] eqn:Hcreate.
    + destruct (created_truthy res) eqn:Hres.
      * destruct c as [c|].
        -- destruct (cm_delete "customers_100_all" c) as [[[]|e] c1] eqn:Hd1.
           ++ destruct (cm_delete "customers_1000_all" c1) as [[[]|e] c2]
                eqn:Hd2.
              ** do 2 eexists. split.
                 { run_mutate. fold data. rewrite Hcreate. cbn. rewrite Hres.
                   cbn. rewrite Hd1. cbn. rewrite Hd2. reflexivity. }
                 finish_report.
              ** do 2 eexists. split.
                 { run_mutate. fold data. rewrite Hcreate. cbn. rewrite Hres.
                   cbn. rewrite Hd1. cbn. rewrite Hd2. reflexivity. }
                 finish_report.
           ++ do 2 eexists. split.
              { run_mutate. fold data. rewrite Hcreate. cbn. rewrite Hres.
                cbn. rewrite Hd1. reflexivity. }
              finish_report.
        -- do 2 eexists. split.
           { run_mutate. fold data. rewrite Hcreate. cbn. rewrite Hres.
             reflexivity. }
           finish_report.
      * do 2 eexists. split.
        { run_mutate. fold data. rewrite Hcreate. cbn. rewrite Hres.
          reflexivity. }
        finish_report.
    + do 2 eexists. split.
      { run_mutate. fold data. rewrite Hcreate. reflexivity. }
      finish_report.
  - do 2 eexists. split; [reflexivity|].
    cbn. split; [discriminate|]. split; [discriminate|].
    split; [reflexivity|]. intros _. split; reflexivity.
Qed.

(** X8. A failing invalidation is reported as a failed creation. When
    [create_customer] has returned a truthy result and a [delete] of the
    cache manager then raises, the mutation returns [success = false] with
    the message of the exception and no customer, although the client has
    created the customer; when it is the first [delete] that raises, the
    second key is not deleted. *)
Theorem X8_failed_invalidation_is_reported_as_failed_create
  {C B : Type} `{CacheManager C} `{GoManageClient B}
  (business_name vat_number : pyval) (kwargs : Record)
  (c : C) (b : B) (t : list Event) (res : option Record) (b1 : B) :
  let data := customer_data business_name vat_number kwargs in
  create_customer data b = (Ret res, b1) ->
  created_truthy res = true ->
  (forall e c1,
      cm_delete "customers_100_all" c = (Raise e, c1) ->
      mutate business_name vat_number kwargs (mkWorld (Some c) (Some b) t)
      = (Ret {| customer := None; success := false;
                message := "Error: " +:+ exn_message e |},
         mkWorld (Some c1) (Some b1)
           (CacheDelete "customers_100_all"
            :: CreateCustomerCall data (Ret res) :: t))) /\
  (forall c1 e c2,
      cm_delete "customers_100_all" c = (Ret tt, c1) ->
      cm_delete "customers_1000_all" c1 = (Raise e, c2) ->
      mutate business_name vat_number kwargs (mkWorld (Some c) (Some b) t)
      = (Ret {| customer := None; success := false;
                message := "Error: " +:+ exn_message e |},
         mkWorld (Some c2) (Some b1)
           (CacheDelete "customers_1000_all"
            :: CacheDelete "customers_100_all"
            :: CreateCustomerCall data (Ret res) :: t))).
Proof.
  intros data Hcreate Hres. split.
  - intros e c1 Hd1. run_mutate. fold data. rewrite Hcreate. cbn.
    rewrite Hres. cbn. rewrite Hd1. reflexivity.
  - intros c1 e c2 Hd1 Hd2. run_mutate. fold data. rewrite Hcreate. cbn.
    rewrite Hres. cbn. rewrite Hd1. cbn. rewrite Hd2. reflexivity.
Qed.

Lemma X7_mutate_witness :
  exists payload w',
    mutate (PStr "Acme") (PStr "ES123") ∅
      (mkWorld (Some stocked_store) (@None Script) [])
    = (Ret payload, w')
    /\ payload = {| customer := None; success := false;
                    message := "GoManage client no disponible" |}
    /\ w' = mkWorld (Some stocked_store) (@None Script) [].
Proof.
  destruct (X7_mutate_reports_success_only_after_create
              (C := TTLStore) (B := Script) (PStr "Acme") (PStr "ES123") ∅
              (mkWorld (Some stocked_store) (@None Script) []))
    as (payload & w' & Hrun & _ & _ & _ & Hnone).
  exists payload, w'. split; [exact Hrun|]. exact (Hnone (eq_refl _)).
Defined.

Lemma X8_failed_invalidation_witness :
  create_customer (customer_data (PStr "Acme") (PStr "ES123") ∅) sample_client
  = (Ret (Some acme),
     {| list_replies := list_replies sample_client; create_replies := [] |})
  /\ created_truthy (Some acme) = true
  /\ cm_delete "customers_100_all" unreachable
     = (Raise (Exception "connection refused"), unreachable)
  /\ (fun p => (success p, message p))
       <$> match fst (mutate (PStr "Acme") (PStr "ES123") ∅
                        (mkWorld (Some unreachable) (Some sample_client) []))
           with Ret p => Some p | Raise _ => None end
     = Some (false, "Error: connection refused").
Proof.
  assert (Hcreate :
            create_customer (customer_data (PStr "Acme") (PStr "ES123") ∅)
              sample_client
            = (Ret (Some acme),
               {| list_replies := list_replies sample_client;
                  create_replies := [] |})) by reflexivity.
  assert (Htruthy : created_truthy (Some acme) = true) by reflexivity.
  assert (Hdel : cm_delete "customers_100_all" unreachable
                 = (Raise (Exception "connection refused"), unreachable))
    by reflexivity.
  split; [exact Hcreate|]. split; [exact Htruthy|]. split; [exact Hdel|].
  destruct (X8_failed_invalidation_is_reported_as_failed_create
              (PStr "Acme") (PStr "ES123") ∅ unreachable sample_client []
              _ _ Hcreate Htruthy) as (Hfirst & _).
  rewrite (Hfirst _ _ Hdel). reflexivity.
Defined.

(** ** The dictionary sent to the client *)

(** X9. The [customer_data] dictionary has exactly ten keys, the two
    required arguments and the eight optional ones, whatever else the
    keyword arguments hold. It carries the required arguments as given; an
    optional argument that was supplied is carried as given (a supplied
    [None] stays [None]), and one that was not is filled in: the business
    name for [name], [ES] for [country_id], [None] for [postal_code] and
    [province_id], the empty string for the others. *)
Theorem X9_customer_data_has_ten_fields_with_defaults
  (business_name vat_number : pyval) (kwargs : Record) :
  let data := customer_data business_name vat_number kwargs in
  dom data
  = list_to_set ("business_name" :: "vat_number" :: optional_arguments) /\
  data !! "business_name" = Some business_name /\
  data !! "vat_number" = Some vat_number /\
  (forall field v,
      In field optional_arguments ->
      kwargs !! field = Some v -> data !! field = Some v) /\
  (forall field,
      In field optional_arguments ->
      kwargs !! field = None ->
      data !! field = Some (default_argument business_name field)).
Proof.
  intros data. split; [|split; [|split; [|split]]].
  - unfold data, customer_data. rewrite !dom_insert_L, dom_empty_L.
    reflexivity.
  - reflexivity.
  - reflexivity.
  - intros field v Hin Hv. unfold optional_arguments in Hin. cbn in Hin.
    unfold data, customer_data, dict_get_none, dict_get.
    repeat (destruct Hin as [<-|Hin]; [rewrite Hv; reflexivity|]).
    destruct Hin.
  - intros field Hin Hv. unfold optional_arguments in Hin. cbn in Hin.
    unfold data, customer_data, dict_get_none, dict_get.
    repeat (destruct Hin as [<-|Hin]; [rewrite Hv; reflexivity|]).
    destruct Hin.
Qed.

Lemma X9_customer_data_witness :
  In "name" optional_arguments
  /\ (<["name" := PNone]> (<["role" := PStr "admin"]> ∅) : Record) !! "name"
     = Some PNone
  /\ customer_data (PStr "Acme") (PStr "ES123")
       (<["name" := PNone]> (<["role" := PStr "admin"]> ∅)) !! "name"
     = Some PNone
  /\ customer_data (PStr "Acme") (PStr "ES123")
       (<["name" := PNone]> (<["role" := PStr "admin"]> ∅)) !! "country_id"
     = Some (PStr "ES").
Proof.
  assert (Hname : In "name" optional_arguments) by (left; reflexivity).
  assert (Hcountry : In "country_id" optional_arguments)
    by (do 6 right; left; reflexivity).
  destruct (X9_customer_data_has_ten_fields_with_defaults
              (PStr "Acme") (PStr "ES123")
              (<["name" := PNone]> (<["role" := PStr "admin"]> ∅)))
    as (_ & _ & _ & Hgiven & Hdflt).
  split; [exact Hname|]. split; [reflexivity|]. split.
  - exact (Hgiven "name" PNone Hname (eq_refl _)).
  - exact (Hdflt "country_id" Hcountry (eq_refl _)).
Defined.

(** ** What a creation leaves in the cache *)

(** X10. A creation invalidates two keys only. On the store, after a
    mutation that succeeded, a customer listing cached under any other key
    (another limit, or a search term) is still served from the cache, with
    no call on the client, as it was before the customer was created;
    the default listing at limit 100 misses and asks the client again. *)
Theorem X10_create_leaves_other_listings_cached
  {B : Type} `{GoManageClient B}
  (business_name vat_number : pyval) (kwargs : Record)
  (s : TTLStore) (b : B) (t : list Event) (res : option Record) (b1 : B)
  (limit : Z) (term : option string) (l : list Record) :
  let data := customer_data business_name vat_number kwargs in
  let key := cache_key Customer limit term in
  create_customer data b = (Ret res, b1) ->
  created_truthy res = true ->
  key <> cache_key Customer 100 None ->
  key <> cache_key Customer 1000 None ->
  visible s key = Some l ->
  l <> [] ->
  let w1 := snd (mutate business_name vat_number kwargs
                   (mkWorld (Some s) (Some b) t)) in
  fetch Customer limit term w1
  = (Ret (returned Customer term l),
     mkWorld (cache_manager w1) (Some b1) (CacheGet key :: trace w1)) /\
  forall r b2,
    list_call Customer 100 None b1 = (r, b2) ->
    exists later,
      trace (snd (fetch Customer 100 None w1))
      = (later ++ GetCustomers 100 r
           :: CacheGet (cache_key Customer 100 None) :: trace w1)%list.
Proof.
  intros data key Hcreate Hres H100 H1000 Hvis Hl w1.
  assert (Hw1 : w1 = mkWorld
                  (Some (store_delete "customers_1000_all"
                           (store_delete "customers_100_all" s)))
                  (Some b1)
                  (CacheDelete "customers_1000_all"
                   :: CacheDelete "customers_100_all"
                   :: CreateCustomerCall data (Ret res) :: t)).
  { unfold w1. run_mutate. fold data. rewrite Hcreate. cbn. rewrite Hres.
    reflexivity. }
  rewrite Hw1. cbn [cache_manager trace mkWorld]. split.
  - apply fetch_store_hit; [|now destruct l].
    unfold visible, store_delete in *. cbn.
    rewrite !lookup_delete_ne by (intros Heq; symmetry in Heq; auto).
    exact Hvis.
  - intros r b2 Hlist.
    rewrite (fetch_store_miss Customer 100 None _ b1 _ r b2); [|  |exact Hlist].
    + destruct r as [[|x rs]|e]; cbn [snd trace mkWorld].
      * now exists [].
      * now eexists [_].
      * now exists [].
    + unfold visible, store_delete. cbn.
      rewrite lookup_delete_ne by discriminate.
      now rewrite lookup_delete_eq.
Qed.

Lemma X10_stale_listing_witness :
  cache_key Customer 10 None <> cache_key Customer 100 None
  /\ visible stocked_store (cache_key Customer 10 None) = Some [acme]
  /\ fst (fetch Customer 10 None
            (snd (mutate (PStr "Acme") (PStr "ES123") ∅ stocked_world)))
     = Ret [acme].
Proof.
  assert (Hcreate :
            create_customer (customer_data (PStr "Acme") (PStr "ES123") ∅)
              sample_client
            = (Ret (Some acme),
               {| list_replies := list_replies sample_client;
                  create_replies := [] |})) by reflexivity.
  assert (Htruthy : created_truthy (Some acme) = true) by reflexivity.
  assert (H100 : cache_key Customer 10 None <> cache_key Customer 100 None)
    by discriminate.
  assert (H1000 : cache_key Customer 10 None <> cache_key Customer 1000 None)
    by discriminate.
  assert (Hvis : visible stocked_store (cache_key Customer 10 None)
                 = Some [acme]) by reflexivity.
  split; [exact H100|]. split; [exact Hvis|].
  destruct (X10_create_leaves_other_listings_cached
              (PStr "Acme") (PStr "ES123") ∅ stocked_store sample_client []
              _ _ 10 None [acme] Hcreate Htruthy H100 H1000 Hvis
              ltac:(discriminate)) as (Hhit & _).
  unfold stocked_world. rewrite Hhit. reflexivity.
Defined.

(** ** Lookups and the cache *)

(** X11. A lookup by identifier is served by the cache entry of the
    listing at limit 1000 with no term: when the store holds that entry,
    [resolve_customer], [resolve_product] and [resolve_invoice] make one
    [get] on it and no call on the client, leave the store as it was, and
    return the first record of the entry with the identifier (or [None]).
    With no client in the context they return [None] and call nothing. *)
Theorem X11_lookup_is_served_by_the_limit_1000_entry
  {B : Type} `{GoManageClient B}
  (s : TTLStore) (b : B) (t : list Event) (l : list Record) :
  l <> [] ->
  (visible s (cache_key Customer 1000 None) = Some l ->
   forall customer_id,
     resolve_customer customer_id (mkWorld (Some s) (Some b) t)
     = (Ret (first_with "customer_id" (PInt customer_id) l),
        mkWorld (Some s) (Some b) (CacheGet "customers_1000_all" :: t))) /\
  (visible s (cache_key Product 1000 None) = Some l ->
   forall product_id,
     resolve_product product_id (mkWorld (Some s) (Some b) t)
     = (Ret (first_with "product_id" (PStr product_id) l),
        mkWorld (Some s) (Some b) (CacheGet "products_1000_all" :: t))) /\
  (visible s (cache_key Invoice 1000 None) = Some l ->
   forall invoice_id,
     resolve_invoice invoice_id (mkWorld (Some s) (Some b) t)
     = (Ret (first_with "invoice_id" (PInt invoice_id) l),
        mkWorld (Some s) (Some b) (CacheGet "invoices_1000_all" :: t))) /\
  (forall customer_id product_id invoice_id,
      let w := mkWorld (Some s) (@None B) t in
      resolve_customer customer_id w = (Ret None, w) /\
      resolve_product product_id w = (Ret None, w) /\
      resolve_invoice invoice_id w = (Ret None, w)).
Proof.
  intros Hl.
  assert (Hne : nonempty l = true) by now destruct l.
  split; [|split; [|split]].
  - intros Hvis id. unfold resolve_customer, try_except, bind.
    change (resolve_customers 1000 None) with (fetch (C := TTLStore) (B := B) Customer 1000 None).
    rewrite (fetch_store_hit Customer 1000 None s b t l Hvis Hne).
    cbn. now rewrite scan_first_with.
  - intros Hvis id. unfold resolve_product, try_except, bind.
    change (resolve_products 1000 None) with (fetch (C := TTLStore) (B := B) Product 1000 None).
    rewrite (fetch_store_hit Product 1000 None s b t l Hvis Hne).
    cbn. now rewrite scan_first_with.
  - intros Hvis id. unfold resolve_invoice, try_except, bind.
    change (resolve_invoices 1000 None) with (fetch (C := TTLStore) (B := B) Invoice 1000 None).
    rewrite (fetch_store_hit Invoice 1000 None s b t l Hvis Hne).
    cbn. now rewrite scan_first_with.
  - intros; repeat split; reflexivity.
Qed.

Lemma X11_lookup_witness :
  visible stocked_store (cache_key Customer 1000 None) = Some [acme; bar_ltd]
  /\ resolve_customer 8 stocked_world
     = (Ret (Some bar_ltd),
        mkWorld (Some stocked_store) (Some sample_client)
          [CacheGet "customers_1000_all"]).
Proof.
  assert (Hvis : visible stocked_store (cache_key Customer 1000 None)
                 = Some [acme; bar_ltd]) by reflexivity.
  split; [exact Hvis|].
  destruct (X11_lookup_is_served_by_the_limit_1000_entry stocked_store
              sample_client [] [acme; bar_ltd] ltac:(discriminate))
    as (Hcustomer & _).
  unfold stocked_world. rewrite (Hcustomer Hvis 8). reflexivity.
Defined.

(** ** Cache statistics *)

(** X12. [resolve_cache_stats] always returns a dictionary, never an
    exception, and needs no client. With no cache manager it is the
    dictionary of type [None], not connected; when [get_stats] raises it is
    the dictionary of type [Error], not connected, whose error is the
    message of the exception; otherwise it is what [get_stats] returned,
    unchanged. *)
Theorem X12_cache_stats_are_always_a_dictionary
  {C B : Type} `{StatsSource C} (w : World C B) :
  (exists d w', resolve_cache_stats w = (Ret d, w')) /\
  (cache_manager w = None ->
   resolve_cache_stats w = (Ret no_manager_stats, w) /\
   no_manager_stats !! "connected" = Some (PBool false) /\
   no_manager_stats !! "type" = Some (PStr "None")) /\
  (forall c d c',
      cache_manager w = Some c ->
      cm_get_stats c = (Ret d, c') ->
      resolve_cache_stats w
      = (Ret d, mkWorld (Some c') (gomanage_client w) (trace w))) /\
  (forall c e c',
      cache_manager w = Some c ->
      cm_get_stats c = (Raise e, c') ->
      resolve_cache_stats w
      = (Ret (error_stats e),
         mkWorld (Some c') (gomanage_client w) (trace w)) /\
      error_stats e !! "connected" = Some (PBool false) /\
      error_stats e !! "type" = Some (PStr "Error") /\
      error_stats e !! "error" = Some (PStr (exn_message e))).
Proof.
  assert (Hnone : cache_manager w = None ->
                  resolve_cache_stats w = (Ret no_manager_stats, w)).
  { intros Hc. unfold resolve_cache_stats, try_except, bind, has_cache, ret.
    rewrite Hc. reflexivity. }
  assert (Hsome : forall c r c',
             cache_manager w = Some c -> cm_get_stats c = (r, c') ->
             resolve_cache_stats w
             = (Ret (match r with Ret d => d | Raise e => error_stats e end),
                mkWorld (Some c') (gomanage_client w) (trace w))).
  { intros c r c' Hc Hstats.
    unfold resolve_cache_stats, try_except, bind, has_cache, cache_get_stats,
      ret. rewrite Hc. cbn. rewrite Hc, Hstats. now destruct r. }
  split; [|split; [|split]].
  - destruct (cache_manager w) as [c|] eqn:Hc.
    + destruct (cm_get_stats c) as [r c'] eqn:Hstats.
      rewrite (Hsome c r c' (eq_refl _) Hstats). eauto.
    + rewrite Hnone by reflexivity. eauto.
  - intros Hc. repeat split. now apply Hnone.
  - intros c d c' Hc Hstats. exact (Hsome c (Ret d) c' Hc Hstats).
  - intros c e c' Hc Hstats. repeat split.
    exact (Hsome c (Raise e) c' Hc Hstats).
Qed.

Lemma X12_cache_stats_witness :
  cm_get_stats unreachable
  = (Raise (Exception "connection refused"), unreachable)
  /\ fst (resolve_cache_stats
            (mkWorld (Some unreachable) (@None Script) []))
     = Ret (error_stats (Exception "connection refused"))
  /\ fst (resolve_cache_stats (mkWorld (@None TTLStore) (@None Script) []))
     = Ret no_manager_stats.
Proof.
  assert (Hstats : cm_get_stats unreachable
                   = (Raise (Exception "connection refused"), unreachable))
    by reflexivity.
  split; [exact Hstats|]. split.
  - destruct (X12_cache_stats_are_always_a_dictionary
                (mkWorld (Some unreachable) (@None Script) []))
      as (_ & _ & _ & Hraise).
    destruct (Hraise unreachable _ _ (eq_refl _) Hstats) as (Hrun & _).
    rewrite Hrun. reflexivity.
  - destruct (X12_cache_stats_are_always_a_dictionary
                (mkWorld (@None TTLStore) (@None Script) []))
      as (_ & Hnone & _).
    destruct (Hnone (eq_refl _)) as (Hrun & _).
    rewrite Hrun. reflexivity.
Defined.
